(** * pytac.lattice: the [Lattice] container and its value-access logic

    A shallow embedding of [src/pytac/lattice.py].  The lattice is a Python
    object holding an ordered list of element references, a dict of models
    and a dict of unit-conversion objects; every method is a computation in
    a small state-and-exception monad over the lattice object and the
    objects it delegates to. *)

From Stdlib Require Import Floats.PrimFloat.
From stdpp Require Import gmap strings list.

(** A decimal float literal stands for the nearest binary64 value, as it
    does in Python. *)
Set Warnings "-inexact-float".

(** ** Python exceptions and results *)

(** The exception classes [lattice.py] raises or catches; whatever else a
    collaborator may raise is [OtherException] tagged with its class name.
    Messages are dropped: no handler inspects them. *)
Inductive exn : Type :=
  | KeyError
  | DeviceException
  | FieldException
  | HandleException
  | LatticeException
  | OtherException (cls : string).

#[global] Instance exn_eq_dec : EqDecision exn.
Proof. solve_decision. Defined.

(** The exception Python's list indexing raises. *)
Definition IndexError : exn := OtherException "IndexError".

Inductive Res (A : Type) : Type :=
  | Ok (a : A)
  | Raise (e : exn).
Arguments Ok {A} a.
Arguments Raise {A} e.

(** ** The monad of Python computations

    A computation runs on a store and yields a value or a raised
    exception together with the store reached: writes made before a
    [raise] stay. *)
Definition Py (St A : Type) : Type := St → Res A * St.

Definition py_ret {St A} (a : A) : Py St A := λ s, (Ok a, s).

Definition py_bind {St A B} (f : A → Py St B) (m : Py St A) : Py St B :=
  λ s, match m s with
       | (Ok a, s') => f a s'
       | (Raise e, s') => (Raise e, s')
       end.

#[global] Instance Py_ret {St} : MRet (Py St) := @py_ret St.
#[global] Instance Py_bind {St} : MBind (Py St) := @py_bind St.

Definition raise {St A} (e : exn) : Py St A := λ s, (Raise e, s).

(** A result computed without touching the store. *)
Definition of_res {St A} (r : Res A) : Py St A := λ s, (r, s).

(** [try: body  except E1: h1  except E2: h2]: [handler e] is the clause
    that matches [e], if any; an exception no clause matches goes on. *)
Definition try_except {St A} (body : Py St A)
    (handler : exn → option (Py St A)) : Py St A :=
  λ s, match body s with
       | (Ok a, s') => (Ok a, s')
       | (Raise e, s') =>
           match handler e with
           | Some h => h s'
           | None => (Raise e, s')
           end
       end.

(** [for x in l: acc = body(acc, x)], left to right, stopping at the first
    exception. *)
Fixpoint for_each {St A B} (l : list A) (body : B → A → Py St B) (acc : B)
    : Py St B :=
  match l with
  | [] => mret acc
  | x :: rest => acc' ← body acc x; for_each rest body acc'
  end.

(** [d[k]] on a dict. *)
Definition getitem {St V} (d : gmap string V) (k : string) : Py St V :=
  match d !! k with
  | Some v => mret v
  | None => raise KeyError
  end.

(** ** The collaborators' interfaces

    Elements, models, unit conversions and devices are objects supplied
    from outside [lattice.py].  Each is a type of object references with
    the attributes and methods the lattice uses; [World] is the state of
    everything behind them (model values, hardware). *)

(** Numbers a length can be: Python's literal [0] and [+]. *)
Class Numeric (Num : Type) := {
  num_zero : Num;
  num_add : Num → Num → Num }.

#[global] Instance float_Numeric : Numeric float :=
  {| num_zero := 0%float; num_add := PrimFloat.add |}.
#[global] Instance Z_Numeric : Numeric Z :=
  {| num_zero := 0%Z; num_add := Z.add |}.

(** [element.length], [element.families], [element.cell],
    [element.get_device(field)], [element.get_value(field, handle)],
    [element.set_value(field, value)].  Equality on [Element] is object
    identity ([is]).  [get_device] is a lookup in the element's own
    field-to-device mapping: it reads the world and may raise. *)
Class ElementAPI (Element Num Value Device World : Type) := {
  Element_is :: EqDecision Element;
  Element_length : Element → Num;
  Element_families : Element → gset string;
  Element_cell : Element → option Z;
  Element_get_device : Element → string → World → Res Device;
  Element_get_value : Element → string → string → World → Res Value * World;
  Element_set_value : Element → string → Value → World → Res unit * World }.

(** [model.units], [model.get_fields()], [model.add_device(field, device)],
    [model.get_device(field)], [model.get_value(field, handle)],
    [model.set_value(field, value)]. *)
Class ModelAPI (Model Value Device World : Type) := {
  Model_units : Model → string;
  Model_get_fields : Model → World → Res (gset string);
  Model_add_device : Model → string → Device → World → Res unit * World;
  Model_get_device : Model → string → World → Res Device;
  Model_get_value : Model → string → string → World → Res Value * World;
  Model_set_value : Model → string → Value → World → Res unit * World }.

(** [uc.convert(value, origin=..., target=...)]: a pure function that may
    raise. *)
Class UnitConvAPI (UnitConv Value : Type) := {
  UnitConv_convert : UnitConv → Value → string → string → Res Value }.

(** [device.name]. *)
Class DeviceAPI (Device : Type) := {
  Device_name : Device → string }.

(** [numpy.array(values, dtype=dtype)]. *)
Class NumpyAPI (Value Dtype NdArray : Type) := {
  numpy_array : list Value → Dtype → Res NdArray }.

(** The constants of the [pytac] package the lattice refers to:
    [pytac.SP] and [pytac.LIVE]. *)
Class PytacConstants := {
  SP : string;
  LIVE : string }.

(** ** The lattice object *)

Section Lattice.
Context {Num Value Device World Element Model UnitConv Dtype NdArray : Type}.
Context {numbers : Numeric Num} {constants : PytacConstants}.
Context {elements : ElementAPI Element Num Value Device World}.
Context {models : ModelAPI Model Value Device World}.
Context {unitconvs : UnitConvAPI UnitConv Value} {devices : DeviceAPI Device}.
Context {numpy : NumpyAPI Value Dtype NdArray}.

(** The attributes set by [__init__]. *)
Record Lattice : Type := mkLattice {
  name : string;
  _lattice : list Element;
  _energy : Z;
  _models : gmap string Model;
  _uc : gmap string UnitConv }.

Definition __init__ (name : string) (energy : Z) : Lattice :=
  {| name := name; _lattice := []; _energy := energy;
     _models := ∅; _uc := ∅ |}.

(** A method call made on a collaborator. *)
Inductive Event : Type :=
  | Call_Model_get_fields (m : Model)
  | Call_Model_add_device (m : Model) (field : string) (d : Device)
  | Call_Model_get_device (m : Model) (field : string)
  | Call_Model_get_value (m : Model) (field handle : string)
  | Call_Model_set_value (m : Model) (field : string) (v : Value)
  | Call_UnitConv_convert (uc : UnitConv) (v : Value) (origin target : string)
  | Call_Element_get_device (e : Element) (field : string)
  | Call_Element_get_value (e : Element) (field handle : string)
  | Call_Element_set_value (e : Element) (field : string) (v : Value).

(** The store: the lattice object [self], the world behind the
    collaborators, and the record of the method calls made on them so
    far, oldest first. *)
Record State : Type := mkState {
  self : Lattice;
  world : World;
  calls : list Event }.

Local Abbreviation M := (Py State).

(** Calling a method of a collaborator: the call is recorded, the
    world moves as the method says, its result or exception comes back. *)
Definition call {X} (ev : Event) (method : World → Res X * World) : M X :=
  λ s, let r := method (world s) in
       (r.1, {| self := self s; world := r.2; calls := calls s ++ [ev] |}).

Definition call_read {X} (ev : Event) (method : World → Res X) : M X :=
  call ev (λ w, (method w, w)).

Definition get_self : M Lattice := λ s, (Ok (self s), s).

Definition set_self (l : Lattice) : M unit :=
  λ s, (Ok tt, {| self := l; world := world s; calls := calls s |}).

(** *** Registration *)

Definition set_model (model : Model) (model_type : string) : M unit :=
  l ← get_self;
  set_self {| name := name l; _lattice := _lattice l; _energy := _energy l;
              _models := <[model_type := model]> (_models l);
              _uc := _uc l |}.

(** [for model in self._models] walks the keys of the dict and looks
    each one up again.  The walk is in the order [map_to_list] gives the
    keys, which need not be the order of the interpreter's dict
    (insertion order from Python 3.7 on); that order shows only in the
    sequence of [get_fields] calls and in which model's exception comes
    out first, not in the set returned. *)
Definition get_fields : M (gset string) :=
  l ← get_self;
  for_each (map_to_list (_models l)).*1
    (λ fields model,
       m ← getitem (_models l) model;
       fs ← call_read (Call_Model_get_fields m) (Model_get_fields m);
       mret (fields ∪ fs))
    ∅.

Definition add_device (field : string) (device : Device) (uc : UnitConv)
    : M unit :=
  l ← get_self;
  m ← getitem (_models l) LIVE;
  call (Call_Model_add_device m field device)
       (Model_add_device m field device);;
  l ← get_self;
  set_self {| name := name l; _lattice := _lattice l; _energy := _energy l;
              _models := _models l;
              _uc := <[field := uc]> (_uc l) |}.

Definition get_device (field : string) : M Device :=
  l ← get_self;
  m ← getitem (_models l) LIVE;
  call_read (Call_Model_get_device m field) (Model_get_device m field).

Definition get_unitconv (field : string) : M UnitConv :=
  l ← get_self;
  getitem (_uc l) field.

(** *** Single values *)

Definition get_value (field handle units model : string) : M Value :=
  try_except
    (l ← get_self;
     m ← getitem (_models l) model;
     value ← call (Call_Model_get_value m field handle)
                  (Model_get_value m field handle);
     l ← get_self;
     uc ← getitem (_uc l) field;
     call_read (Call_UnitConv_convert uc value (Model_units m) units)
               (λ _, UnitConv_convert uc value (Model_units m) units))
    (λ e, match e with
          | KeyError => Some (raise DeviceException)
          | FieldException => Some (raise FieldException)
          | _ => None
          end).

Definition set_value (field : string) (value : Value)
    (handle units model : string) : M unit :=
  if decide (handle ≠ SP) then raise HandleException
  else
    m ← try_except
           (l ← get_self; getitem (_models l) model)
           (λ e, match e with
                 | KeyError => Some (raise DeviceException)
                 | _ => None
                 end);
    try_except
      (l ← get_self;
       uc ← getitem (_uc l) field;
       value ← call_read
                 (Call_UnitConv_convert uc value units (Model_units m))
                 (λ _, UnitConv_convert uc value units (Model_units m));
       call (Call_Model_set_value m field value)
            (Model_set_value m field value))
      (λ e, match e with
            | KeyError => Some (raise FieldException)
            | FieldException => Some (raise FieldException)
            | _ => None
            end).

Definition get_energy : M Z :=
  l ← get_self; mret (_energy l).

(** *** The element sequence *)

(** [self._lattice[n]] for an integer [n], as Python indexes a list: a
    negative [n] counts from the end, and an index that falls outside
    the list raises IndexError. *)
Definition __getitem__ (n : Z) : M Element :=
  l ← get_self;
  let len := Z.of_nat (length (_lattice l)) in
  let i := if decide (n < 0)%Z then (n + len)%Z else n in
  if decide (0 ≤ i < len)%Z
  then match _lattice l !! Z.to_nat i with
       | Some element => mret element
       | None => raise IndexError
       end
  else raise IndexError.

Definition __len__ : M nat :=
  l ← get_self; mret (length (_lattice l)).

Definition get_length : M Num :=
  l ← get_self;
  for_each (_lattice l)
    (λ total_length e, mret (num_add total_length (Element_length e)))
    num_zero.

Definition add_element (element : Element) : M unit :=
  l ← get_self;
  set_self {| name := name l; _lattice := _lattice l ++ [element];
              _energy := _energy l; _models := _models l; _uc := _uc l |}.

(** [family in element.families] for a requested [family] that is a
    string or [None]; the tags are strings, so [None] is in no set. *)
Definition family_in (family : option string) (e : Element) : bool :=
  match family with
  | Some f => bool_decide (f ∈ Element_families e)
  | None => false
  end.

(** With [family is None] the local [elements] is the list object
    [self._lattice] itself; the loop appends only where [family_in]
    holds, which is nowhere in that case, so the list it walks is not
    grown under it. *)
Definition get_elements (family : option string) (cell : option Z)
    : M (list Element) :=
  l ← get_self;
  let elements := match family with
                  | None => _lattice l
                  | Some _ => []
                  end in
  elements ← for_each (_lattice l)
               (λ elements element,
                  if family_in family element
                  then mret (elements ++ [element])
                  else mret elements)
               elements;
  match cell with
  | Some c =>
      mret (filter (λ e, Element_cell e = Some c) elements)
  | None => mret elements
  end.

Definition get_all_families : M (gset string) :=
  l ← get_self;
  for_each (_lattice l)
    (λ families element, mret (families ∪ Element_families element))
    ∅.

(** The scan of [get_s]: [return s_pos] at the first [el] that is
    [elem], [raise] when the list is exhausted. *)
Fixpoint get_s_scan (lattice : list Element) (elem : Element) (s_pos : Num)
    : M Num :=
  match lattice with
  | [] => raise LatticeException
  | el :: rest =>
      if decide (el ≠ elem)
      then get_s_scan rest elem (num_add s_pos (Element_length el))
      else mret s_pos
  end.

Definition get_s (elem : Element) : M Num :=
  l ← get_self;
  get_s_scan (_lattice l) elem num_zero.

Definition get_family_s (family : option string) : M (list Num) :=
  elements ← get_elements family None;
  for_each elements
    (λ s_positions element,
       s ← get_s element; mret (s_positions ++ [s]))
    [].

(** *** Whole families *)

Definition get_element_devices (family : option string) (field : string)
    : M (list Device) :=
  elements ← get_elements family None;
  for_each elements
    (λ devices element,
       try_except
         (d ← call_read (Call_Element_get_device element field)
                        (Element_get_device element field);
          mret (devices ++ [d]))
         (λ e, match e with
               | KeyError => Some (mret devices)
               | _ => None
               end))
    [].

Definition get_element_device_names (family : option string)
    (field : string) : M (list string) :=
  devices ← get_element_devices family field;
  mret (Device_name <$> devices).

(** What [get_element_values] returns: a list, or an array when a
    [dtype] is given. *)
Inductive Values : Type :=
  | AsList (values : list Value)
  | AsArray (values : NdArray).

Definition get_element_values (family : option string)
    (field handle : string) (dtype : option Dtype) : M Values :=
  elements ← get_elements family None;
  values ← for_each elements
             (λ values element,
                v ← call (Call_Element_get_value element field handle)
                         (Element_get_value element field handle);
                mret (values ++ [v]))
             [];
  match dtype with
  | Some dt => a ← of_res (numpy_array values dt); mret (AsArray a)
  | None => mret (AsList values)
  end.

(** [for element, value in zip(elements, values)]. *)
Definition set_element_values (family : option string) (field : string)
    (values : list Value) : M unit :=
  elements ← get_elements family None;
  if decide (length elements ≠ length values)
  then raise LatticeException
  else
    for_each (zip elements values)
      (λ _ ev,
         call (Call_Element_set_value ev.1 field ev.2)
              (Element_set_value ev.1 field ev.2))
      tt.

End Lattice.

(** ** What the specification says, in its own words *)

Section Specification.
Context {Num Value Device World Element Model UnitConv : Type}.
Context {numbers : Numeric Num}.
Context {elements : ElementAPI Element Num Value Device World}.

(** An element is of the requested family: its family-tag set contains
    the family; when no family is requested every element is. *)
Definition in_family (family : option string) (e : Element) : Prop :=
  match family with
  | Some F => F ∈ Element_families e
  | None => True
  end.

(** An element is in the requested cell; when no cell is requested
    every element is. *)
Definition in_cell (cell : option Z) (e : Element) : Prop :=
  match cell with
  | Some C => Element_cell e = Some C
  | None => True
  end.

#[global] Instance in_family_dec family e : Decision (in_family family e).
Proof. destruct family; simpl; apply _. Defined.

#[global] Instance in_cell_dec cell e : Decision (in_cell cell e).
Proof. destruct cell; simpl; apply _. Defined.

(** The elements of a family, in lattice order. *)
Definition family_of (family : option string) (lattice : list Element)
    : list Element :=
  filter (in_family family) lattice.

(** The sum of the lengths of a run of elements, taken in order,
    starting from 0. *)
Definition sum_lengths (run : list Element) : Num :=
  fold_left num_add (Element_length <$> run) num_zero.

(** The device a lookup found, if it succeeded. *)
Definition found (r : Res Device) : option Device :=
  match r with
  | Ok d => Some d
  | Raise _ => None
  end.

(** The elements before the first occurrence of [elem]; the whole
    list when it does not occur. *)
Fixpoint before (elem : Element) (lattice : list Element) : list Element :=
  match lattice with
  | [] => []
  | el :: rest => if decide (el = elem) then [] else el :: before elem rest
  end.

(** One [add_element] call per element, in order. *)
Definition add_elements (new : list Element)
    : Py (@State Value Device World Element Model UnitConv) unit :=
  for_each new (λ _ element, add_element element) tt.

(** What [get_value] makes of an exception raised inside its [try]. *)
Definition get_value_wraps (x : exn) : exn :=
  match x with
  | KeyError => DeviceException
  | FieldException => FieldException
  | _ => x
  end.

(** What [set_value] makes of an exception raised inside its second
    [try]. *)
Definition set_value_wraps (x : exn) : exn :=
  match x with
  | KeyError => FieldException
  | FieldException => FieldException
  | _ => x
  end.

(** A computation leaves the lattice's own state (name, element
    sequence, energy, model table, unit-conversion table) as it found
    it, whether it returns or raises. *)
Definition keeps_self {A}
    (m : Py (@State Value Device World Element Model UnitConv) A) : Prop :=
  ∀ s, self (m s).2 = self s.

End Specification.

(** ** A small ring to run the methods on

    Three elements, a live model that stores what is written to it, and a
    unit conversion that is its own inverse. *)
Module Demo.

#[global] Instance constants : PytacConstants :=
  {| SP := "setpoint"; LIVE := "live" |}.

(** Values held behind the collaborators, by object and field. *)
Abbreviation World := (gmap (nat * string) Z).

(** Elements 0, 1 and 2 are two BPMs around a quadrupole.  Element 3
    is a spare BPM with the attributes of element 0 that is in no
    lattice; every other reference is a bare element of length 0. *)
Definition lengths (e : nat) : Z :=
  match e with 0 | 3 => 1%Z | 1 => 2%Z | 2 => 3%Z | _ => 0%Z end.

Definition float_lengths (e : nat) : float :=
  match e with
  | 0 | 3 => 1%float
  | 1 => 2%float
  | 2 => 3%float
  | _ => 0%float
  end.

Definition tags (e : nat) : gset string :=
  match e with
  | 0 | 2 | 3 => {["BPM"]}
  | 1 => {["QUAD"]}
  | _ => ∅
  end.

Definition cells (e : nat) : option Z :=
  match e with 0 | 1 | 3 => Some 1%Z | 2 => Some 2%Z | _ => None end.

(** Only the BPMs have a device, on field x. *)
Definition device_of (e : nat) (field : string) : Res string :=
  match e with
  | 0 => if decide (field = "x") then Ok "BPM0:X" else Raise KeyError
  | 2 => if decide (field = "x") then Ok "BPM2:X" else Raise KeyError
  | _ => Raise KeyError
  end.

Definition read (obj : nat) (field : string) (w : World) : Res Z * World :=
  match w !! (obj, field) with
  | Some v => (Ok v, w)
  | None => (Raise FieldException, w)
  end.

Definition write (obj : nat) (field : string) (v : Z) (w : World)
    : Res unit * World :=
  (Ok tt, <[(obj, field) := v]> w).

Definition elements_with {Num} (length : nat → Num)
    : ElementAPI nat Num Z string World :=
  {| Element_length := length;
     Element_families := tags;
     Element_cell := cells;
     Element_get_device := λ e field _, device_of e field;
     Element_get_value := λ e field _, read e field;
     Element_set_value := write |}.

#[global] Instance elements : ElementAPI nat Z Z string World :=
  elements_with lengths.

Definition float_elements : ElementAPI nat float Z string World :=
  elements_with float_lengths.

(** The same three elements with lengths 0.1, 0.2 and 0.3. *)
Definition tenth_lengths (e : nat) : float :=
  match e with
  | 0 => 0.1%float
  | 1 => 0.2%float
  | 2 => 0.3%float
  | _ => 0%float
  end.

Definition tenth_elements : ElementAPI nat float Z string World :=
  elements_with tenth_lengths.

(** A model is known by its number and works in engineering units. *)
#[global] Instance models : ModelAPI nat Z string World :=
  {| Model_units := λ _, "engineering";
     Model_get_fields := λ _ _, Ok {["x"]};
     Model_add_device := λ _ _ _ w, (Ok tt, w);
     Model_get_device := λ _ _ _, Raise KeyError;
     Model_get_value := λ m field _, read m field;
     Model_set_value := write |}.

(** The conversion [k] mirrors a value around [k/2] between two
    different units and is the identity within one. *)
#[global] Instance unitconvs : UnitConvAPI Z Z :=
  {| UnitConv_convert := λ k v origin target,
       Ok (if decide (origin = target) then v else k - v)%Z |}.

#[global] Instance devices : DeviceAPI string :=
  {| Device_name := λ d, d |}.

#[global] Instance numpy : NumpyAPI Z unit (list Z) :=
  {| numpy_array := λ values _, Ok values |}.

(** The live model is object 100. *)
Definition live : nat := 100.

Definition ring : @Lattice nat nat Z :=
  {| name := "ring"; _lattice := [0; 1; 2]; _energy := 3000;
     _models := {[ "live" := live ]}; _uc := {[ "x" := 10%Z ]} |}.

(** The same ring before any unit conversion was registered. *)
Definition bare_ring : @Lattice nat nat Z :=
  {| name := "ring"; _lattice := [0; 1; 2]; _energy := 3000;
     _models := {[ "live" := live ]}; _uc := ∅ |}.

Definition start (l : @Lattice nat nat Z) : @State Z string World nat nat Z :=
  {| self := l; world := {[ (live, "x") := 7%Z ]}; calls := [] |}.

End Demo.

(** ** Collaborators that refuse

    The same ring with a conversion that only knows the identity, a
    live model that cannot be written to, and a quadrupole whose device
    lookup fails with something other than a KeyError. *)
Module Faulty.

Import Demo.

Definition strict_unitconvs : UnitConvAPI Z Z :=
  {| UnitConv_convert := λ _ v origin target,
       if decide (origin = target) then Ok v
       else Raise (OtherException "UnitsException") |}.

Definition readonly_models : ModelAPI nat Z string World :=
  {| Model_units := λ _, "engineering";
     Model_get_fields := λ _ _, Ok {["x"]};
     Model_add_device := λ _ _ _ w, (Raise (OtherException "TypeError"), w);
     Model_get_device := λ _ _ _, Raise KeyError;
     Model_get_value := λ m field _, read m field;
     Model_set_value := λ _ _ _ w, (Raise KeyError, w) |}.

Definition guarded_device_of (e : nat) (field : string) : Res string :=
  match e with
  | 1 => Raise DeviceException
  | _ => device_of e field
  end.

Definition guarded_elements : ElementAPI nat Z Z string World :=
  {| Element_length := lengths;
     Element_families := tags;
     Element_cell := cells;
     Element_get_device := λ e field _, guarded_device_of e field;
     Element_get_value := λ e field _, read e field;
     Element_set_value := write |}.

(** A lattice nothing was registered on. *)
Definition empty_ring : @Lattice nat nat Z := __init__ "new" 3000.

(** The ring with a value behind each BPM's field x. *)
Definition filled : @State Z string World nat nat Z :=
  {| self := ring;
     world := {[ (0, "x") := 1%Z; (2, "x") := 5%Z; (live, "x") := 7%Z ]};
     calls := [] |}.

Definition bpm_x (e : nat) : Z :=
  match e with 0 => 1%Z | 2 => 5%Z | _ => 0%Z end.

End Faulty.

(** ** Running computations *)

Section Running.
Context {St : Type}.

Lemma run_ret {A} (a : A) (s : St) : (mret a : Py St A) s = (Ok a, s).
Proof. reflexivity. Qed.

Lemma run_bind {A B} (m : Py St A) (f : A → Py St B) (s : St) :
  (m ≫= f) s = match m s with
               | (Ok a, s') => f a s'
               | (Raise e, s') => (Raise e, s')
               end.
Proof. reflexivity. Qed.

(** A loop whose body only computes is a left fold. *)
Lemma for_each_pure {A B} (g : B → A → B) (l : list A) (acc : B) (s : St) :
  for_each l (λ acc x, mret (g acc x)) acc s = (Ok (fold_left g l acc), s).
Proof.
  revert acc. induction l as [|x l IH]; intros acc; [reflexivity|].
  simpl. rewrite run_bind, run_ret. apply IH.
Qed.

Lemma fold_left_fmap {A B C} (g : B → C → B) (h : A → C) (l : list A) b :
  fold_left g (h <$> l) b = fold_left (λ b a, g b (h a)) l b.
Proof. revert b. induction l as [|a l IH]; intros b; simpl; auto. Qed.

Lemma filter_all {A} (P : A → Prop) `{!∀ x, Decision (P x)} (l : list A) :
  (∀ x, P x) → filter P l = l.
Proof.
  intros HP. induction l as [|a l IH]; [reflexivity|].
  rewrite filter_cons_True by apply HP. by rewrite IH.
Qed.

Lemma filter_none {A} (P : A → Prop) `{!∀ x, Decision (P x)} (l : list A) :
  (∀ x, ¬ P x) → filter P l = [].
Proof.
  intros HP. induction l as [|a l IH]; [reflexivity|].
  rewrite filter_cons_False by apply HP. exact IH.
Qed.

End Running.

(** Run a computation one bind at a time. *)
Ltac run := repeat (progress (rewrite ?run_bind, ?run_ret; simpl)).

(** ** The lattice's methods *)

Section LatticeFacts.
Context {Num Value Device World Element Model UnitConv Dtype NdArray : Type}.
Context {numbers : Numeric Num} {constants : PytacConstants}.
Context {elements : ElementAPI Element Num Value Device World}.
Context {models : ModelAPI Model Value Device World}.
Context {unitconvs : UnitConvAPI UnitConv Value} {devices : DeviceAPI Device}.
Context {numpy : NumpyAPI Value Dtype NdArray}.

Local Abbreviation State := (@State Value Device World Element Model UnitConv).
Local Abbreviation Event := (@Event Value Device Element Model UnitConv).
Local Abbreviation keeps_self :=
  (@keeps_self Value Device World Element Model UnitConv _).
Implicit Types (s : State) (family : option string) (cell : option Z).
Implicit Types (e elem : Element) (field handle units model : string).

(** The tag loop of [get_elements] appends the tagged elements, in
    order, to what [elements] already holds. *)
Lemma get_elements_loop family (l acc : list Element) s :
  for_each l
    (λ elements element,
       if family_in family element
       then mret (elements ++ [element])
       else mret elements)
    acc s
  = (Ok (acc ++ filter (λ e, family_in family e) l), s).
Proof.
  revert acc. induction l as [|x l IH]; intros acc; simpl.
  - by rewrite app_nil_r.
  - rewrite run_bind. destruct (family_in family x) eqn:Hx.
    + rewrite run_ret, IH, filter_cons_True by (rewrite Hx; exact I).
      by rewrite <- app_assoc.
    + rewrite run_ret, IH, filter_cons_False by (rewrite Hx; exact id).
      done.
Qed.

(** [get_elements] selects by family, then by cell, and leaves the
    store as it found it. *)
Lemma get_elements_run family cell s :
  get_elements family cell s
  = (Ok (filter (in_cell cell) (family_of family (_lattice (self s)))), s).
Proof.
  unfold get_elements, family_of. rewrite run_bind. simpl.
  rewrite run_bind, get_elements_loop.
  assert (Hsel : (match family with None => _lattice (self s) | Some _ => [] end)
                 ++ filter (λ e, family_in family e) (_lattice (self s))
                 = filter (in_family family) (_lattice (self s))).
  { destruct family as [F|]; simpl.
    - apply list_filter_iff. intros e. apply bool_decide_spec.
    - rewrite filter_none by (intros ? []).
      rewrite app_nil_r. symmetry. by apply filter_all. }
  rewrite Hsel. destruct cell as [C|]; rewrite run_ret; simpl.
  - reflexivity.
  - rewrite (filter_all (in_cell None)); [reflexivity|]. intros ?; exact I.
Qed.

(** C3: [get_elements(family=None, cell=C)] returns all elements,
    restricted to cell [C] when one is given, in lattice order;
    [get_elements(family=F, cell=C)] returns exactly the elements whose
    family-tag set contains [F], restricted to cell [C] when one is
    given, in lattice order. *)
Theorem get_elements_spec cell s :
  get_elements None cell s
  = (Ok (filter (in_cell cell) (_lattice (self s))), s)
  ∧ ∀ F : string,
      get_elements (Some F) cell s
      = (Ok (filter (λ e, F ∈ Element_families e ∧ in_cell cell e)
               (_lattice (self s))), s).
Proof.
  split; [|intros F]; rewrite get_elements_run; unfold family_of.
  - rewrite (filter_all (in_family None)); [reflexivity|]. intros ?; exact I.
  - rewrite list_filter_filter. do 2 f_equal.
    apply list_filter_iff. intros e. simpl. tauto.
Qed.

(** [get_length] adds up the lengths from 0, left to right. *)
Lemma get_length_run s :
  get_length s = (Ok (sum_lengths (_lattice (self s))), s).
Proof.
  unfold get_length, sum_lengths. rewrite run_bind. simpl.
  by rewrite for_each_pure, fold_left_fmap.
Qed.

Lemma sum_lengths_snoc (pre : list Element) e :
  sum_lengths (pre ++ [e]) = num_add (sum_lengths pre) (Element_length e).
Proof. unfold sum_lengths. by rewrite fmap_app, fold_left_app. Qed.

(** The scan returns at the first occurrence of [elem], with the
    lengths before it added to [s_pos]. *)
Lemma get_s_scan_found (pre post : list Element) elem (s_pos : Num) s :
  elem ∉ pre →
  get_s_scan (pre ++ elem :: post) elem s_pos s
  = (Ok (fold_left num_add (Element_length <$> pre) s_pos), s).
Proof.
  revert s_pos. induction pre as [|el pre IH]; intros s_pos Hpre; simpl.
  - destruct (decide (elem ≠ elem)) as [Hne|_]; [by destruct Hne|reflexivity].
  - apply not_elem_of_cons in Hpre as [Hne Hpre].
    destruct (decide (el ≠ elem)) as [_|Heq]; [by apply IH|].
    destruct Heq. congruence.
Qed.

(** The scan of a list without [elem] runs to the end and raises. *)
Lemma get_s_scan_missing (l : list Element) elem (s_pos : Num) s :
  elem ∉ l →
  get_s_scan l elem s_pos s = (Raise LatticeException, s).
Proof.
  revert s_pos. induction l as [|el l IH]; intros s_pos Hl; simpl.
  - reflexivity.
  - apply not_elem_of_cons in Hl as [Hne Hl].
    destruct (decide (el ≠ elem)) as [_|Heq]; [by apply IH|].
    destruct Heq. congruence.
Qed.

Lemma get_s_run_found (pre post : list Element) elem s :
  _lattice (self s) = pre ++ elem :: post →
  elem ∉ pre →
  get_s elem s = (Ok (sum_lengths pre), s).
Proof.
  intros Hl Hpre. unfold get_s. rewrite run_bind. simpl.
  rewrite Hl. by apply get_s_scan_found.
Qed.

(** C4 (amended): in a lattice whose elements are pairwise distinct,
    [get_s(e)] of an element in the lattice is the sum of the lengths of
    the elements strictly before it, added up in lattice order from 0:
    0 for the first element and, for the last one, the number that with
    its own length added gives the total length, [get_length() ==
    get_s(last) + last.length].  [get_s(e)] of an element that is not in
    the lattice, whatever its attributes, raises LatticeException. *)
Theorem get_s_spec s :
  NoDup (_lattice (self s)) →
  (∀ pre e post,
     _lattice (self s) = pre ++ e :: post →
     get_s e s = (Ok (sum_lengths pre), s))
  ∧ (∀ e rest,
       _lattice (self s) = e :: rest → get_s e s = (Ok num_zero, s))
  ∧ (∀ pre e,
       _lattice (self s) = pre ++ [e] →
       ∃ total s_pos,
         (get_length s).1 = Ok total
         ∧ (get_s e s).1 = Ok s_pos
         ∧ s_pos = sum_lengths pre
         ∧ total = num_add s_pos (Element_length e))
  ∧ (∀ e,
       e ∉ _lattice (self s) →
       get_s e s = (Raise LatticeException, s)).
Proof.
  intros Hdup.
  assert (Hpos : ∀ pre e post,
             _lattice (self s) = pre ++ e :: post →
             get_s e s = (Ok (sum_lengths pre), s)).
  { intros pre e post Hl. apply (get_s_run_found pre post); [done|].
    rewrite Hl in Hdup. apply NoDup_app in Hdup as (_ & Hsep & _).
    intros Hin. apply (Hsep e Hin). left. }
  repeat apply conj.
  - exact Hpos.
  - intros e rest Hl. apply (Hpos [] e rest Hl).
  - intros pre e Hl.
    exists (num_add (sum_lengths pre) (Element_length e)), (sum_lengths pre).
    rewrite get_length_run, (Hpos pre e [] Hl), Hl, sum_lengths_snoc.
    by repeat apply conj.
  - intros e He. unfold get_s. rewrite run_bind. simpl.
    by apply get_s_scan_missing.
Qed.

(** *** Single values *)

(** C1 (amended): with a model registered under the requested key that
    has the requested field, and no unit conversion for the field,
    [get_value] raises DeviceException: the lookup of the conversion
    is inside the [try] whose [except KeyError] clause raises it. *)
Theorem get_value_no_unitconv field handle units model s m v w :
  _models (self s) !! model = Some m →
  Model_get_value m field handle (world s) = (Ok v, w) →
  _uc (self s) !! field = None →
  get_value field handle units model s
  = (Raise DeviceException,
     {| self := self s; world := w;
        calls := calls s ++ [Call_Model_get_value m field handle] |}).
Proof.
  intros Hm Hv Huc.
  unfold get_value, try_except, get_self, getitem, call.
  run. rewrite Hm. run. rewrite Hv. run. rewrite Huc. reflexivity.
Qed.

(** C2: [set_value] with a handle other than [pytac.SP] raises
    HandleException whatever the field, value, units, model key and
    tables are, and nothing has been looked up or called: the store is
    as before. *)
Theorem set_value_handle field (value : Value) handle units model s :
  handle ≠ SP →
  set_value field value handle units model s = (Raise HandleException, s).
Proof.
  intros Hh. unfold set_value.
  destruct (decide (handle ≠ SP)) as [_|Hn]; [reflexivity|by destruct Hn].
Qed.

(** The value a readable field converts to. *)
Lemma get_value_run field handle units model s m uc (v v' : Value) w :
  _models (self s) !! model = Some m →
  Model_get_value m field handle (world s) = (Ok v, w) →
  _uc (self s) !! field = Some uc →
  UnitConv_convert uc v (Model_units m) units = Ok v' →
  get_value field handle units model s
  = (Ok v',
     {| self := self s; world := w;
        calls := (calls s ++ [Call_Model_get_value m field handle])
                 ++ [Call_UnitConv_convert uc v (Model_units m) units] |}).
Proof.
  intros Hm Hv Huc Hconv.
  unfold get_value, try_except, get_self, getitem, call_read, call.
  run. rewrite Hm. run. rewrite Hv. run. rewrite Huc. run.
  rewrite Hconv. reflexivity.
Qed.

(** A write through the setpoint handle converts, then stores. *)
Lemma set_value_run field units model s m uc (v y : Value) w :
  _models (self s) !! model = Some m →
  _uc (self s) !! field = Some uc →
  UnitConv_convert uc v units (Model_units m) = Ok y →
  Model_set_value m field y (world s) = (Ok tt, w) →
  set_value field v SP units model s
  = (Ok tt,
     {| self := self s; world := w;
        calls := (calls s ++ [Call_UnitConv_convert uc v units (Model_units m)])
                 ++ [Call_Model_set_value m field y] |}).
Proof.
  intros Hm Huc Hconv Hset. unfold set_value.
  destruct (decide (SP ≠ SP)) as [Hne|_]; [by destruct Hne|].
  unfold try_except, get_self, getitem, call_read, call.
  run. rewrite Hm. run. rewrite Huc. run. rewrite Hconv. run.
  rewrite Hset. reflexivity.
Qed.

(** C6: for a field with a model registered under the key, a unit
    conversion whose [convert] is its own inverse between the requested
    units and the model's, and a model that accepts a write to the field
    and then reads back the value last written, [set_value] of [v]
    followed by [get_value], both through [pytac.SP] with the same units
    and model key, returns exactly [v]. *)
Theorem set_get_round_trip field (v : Value) units model s m uc :
  _models (self s) !! model = Some m →
  _uc (self s) !! field = Some uc →
  (∀ x w,
     (Model_set_value m field x w).1 = Ok tt
     ∧ (Model_get_value m field SP (Model_set_value m field x w).2).1
       = Ok x) →
  (∀ x, ∃ y,
     UnitConv_convert uc x units (Model_units m) = Ok y
     ∧ UnitConv_convert uc y (Model_units m) units = Ok x) →
  (set_value field v SP units model s).1 = Ok tt
  ∧ (get_value field SP units model
       (set_value field v SP units model s).2).1 = Ok v.
Proof.
  intros Hm Huc Hmodel Hconv.
  destruct (Hconv v) as (y & Hto & Hfrom).
  destruct (Hmodel y (world s)) as [Hset Hget].
  destruct (Model_set_value m field y (world s)) as [r w] eqn:Hw.
  simpl in Hset, Hget. subst r.
  rewrite (set_value_run field units model s m uc v y w) by done.
  split; [reflexivity|]. simpl.
  destruct (Model_get_value m field SP w) as [r w'] eqn:Hw'.
  simpl in Hget. subst r.
  by erewrite get_value_run.
Qed.

(** *** Whole families *)

(** The write loop, when every setter returns: one call per pair, in
    order, each on the world the previous one left. *)
Lemma set_loop field (l : list (Element * Value)) s :
  (∀ ev w, ev ∈ l → (Element_set_value ev.1 field ev.2 w).1 = Ok tt) →
  for_each l
    (λ _ ev, call (Call_Element_set_value ev.1 field ev.2)
                  (Element_set_value ev.1 field ev.2))
    tt s
  = (Ok tt,
     {| self := self s;
        world := fold_left
                   (λ w ev, (Element_set_value ev.1 field ev.2 w).2)
                   l (world s);
        calls := calls s
                 ++ ((λ ev, Call_Element_set_value ev.1 field ev.2) <$> l) |}).
Proof.
  revert s. induction l as [|ev l IH]; intros s Hok; simpl.
  - rewrite run_ret, app_nil_r. by destruct s.
  - rewrite run_bind. unfold call at 1. simpl.
    rewrite (Hok ev (world s)) by left.
    rewrite IH by (intros ev' w' Hin; apply Hok; by right).
    simpl. by rewrite <- app_assoc.
Qed.

(** The write loop in general: the calls made are the first [n] of the
    expected ones, in order, and all of them when the loop returns. *)
Lemma set_loop_calls field (l : list (Element * Value)) s :
  ∃ n,
    calls (for_each l
             (λ _ ev, call (Call_Element_set_value ev.1 field ev.2)
                           (Element_set_value ev.1 field ev.2))
             tt s).2
    = calls s ++ take n ((λ ev, Call_Element_set_value ev.1 field ev.2) <$> l)
    ∧ ((for_each l
          (λ _ ev, call (Call_Element_set_value ev.1 field ev.2)
                        (Element_set_value ev.1 field ev.2))
          tt s).1 = Ok tt →
       n = length l).
Proof.
  revert s. induction l as [|ev l IH]; intros s; simpl.
  - exists 0. rewrite take_0, app_nil_r. by split.
  - rewrite run_bind. unfold call at 1. simpl.
    destruct ((Element_set_value ev.1 field ev.2 (world s)).1) as [[]|x].
    + destruct (IH {| self := self s;
                      world := (Element_set_value ev.1 field ev.2 (world s)).2;
                      calls := calls s
                        ++ [Call_Element_set_value ev.1 field ev.2] |})
        as (n & Hcalls & Hall).
      exists (S n). simpl in *. rewrite Hcalls, <- app_assoc.
      split; [reflexivity|]. intros Hok. by rewrite Hall.
    + exists 1. simpl. rewrite take_0. split; [reflexivity|done].
Qed.

(** C5: [set_element_values] raises LatticeException when the number
    of values differs from the number of elements in the family; when
    the numbers agree it calls each family element's own
    [set_value(field, v)] with the value at the same position, in
    lattice order, and calls nothing else: the value goes to the element
    as given, through no unit conversion.  (A setter that raises ends
    the loop there; the calls made up to it are still the expected ones,
    in order.) *)
Theorem set_element_values_spec family field (values : list Value) s :
  let fam := family_of family (_lattice (self s)) in
  let expected :=
    zip_with (λ e v, Call_Element_set_value e field v) fam values in
  (length fam ≠ length values →
   (set_element_values family field values s).1 = Raise LatticeException)
  ∧ (length fam = length values →
     (∀ e v w, e ∈ fam → (Element_set_value e field v w).1 = Ok tt) →
     set_element_values family field values s
     = (Ok tt,
        {| self := self s;
           world := fold_left
                      (λ w ev, (Element_set_value ev.1 field ev.2 w).2)
                      (zip fam values) (world s);
           calls := calls s ++ expected |}))
  ∧ (length fam = length values →
     ∃ n,
       calls (set_element_values family field values s).2
       = calls s ++ take n expected
       ∧ ((set_element_values family field values s).1 = Ok tt →
          n = length fam)).
Proof.
  intros fam expected. unfold set_element_values.
  rewrite run_bind, get_elements_run. simpl.
  rewrite (filter_all (in_cell None)) by (intros ?; exact I).
  fold fam.
  assert (Hexp : (λ ev, Call_Element_set_value ev.1 field ev.2)
                 <$> zip fam values = expected).
  { unfold expected.
    rewrite (zip_with_zip (λ e v, Call_Element_set_value e field v)).
    apply list_fmap_ext. by intros i [e v] _. }
  repeat apply conj.
  - intros Hlen.
    destruct (decide (length fam ≠ length values)); [reflexivity|done].
  - intros Hlen Hok.
    destruct (decide (length fam ≠ length values)); [done|].
    rewrite set_loop, Hexp; [reflexivity|].
    intros [e v] w Hin. apply Hok. by apply elem_of_zip_l in Hin.
  - intros Hlen.
    destruct (decide (length fam ≠ length values)) as [|_]; [done|].
    destruct (set_loop_calls field (zip fam values) s) as (n & Hcalls & Hall).
    exists n. rewrite Hcalls, Hexp. split; [reflexivity|].
    intros Hok. rewrite (Hall Hok), length_zip_with. lia.
Qed.

(** C10: when the number of values does not match the number of
    elements in the family, [set_element_values] raises
    LatticeException before any write: no element's [set_value] has
    been called and the world is untouched. *)
Theorem set_element_values_mismatch family field (values : list Value) s :
  length (family_of family (_lattice (self s))) ≠ length values →
  set_element_values family field values s = (Raise LatticeException, s).
Proof.
  intros Hlen. unfold set_element_values.
  rewrite run_bind, get_elements_run. simpl.
  rewrite (filter_all (in_cell None)) by (intros ?; exact I).
  destruct (decide (_ ≠ _)); [reflexivity|done].
Qed.

(** The device loop, when every lookup finds a device or raises
    KeyError: the devices found are appended in order, every element is
    asked once, and nothing is raised. *)
Lemma devices_loop field (l : list Element) (acc : list Device) s :
  (∀ e, e ∈ l →
     (∃ d, Element_get_device e field (world s) = Ok d)
     ∨ Element_get_device e field (world s) = Raise KeyError) →
  for_each l
    (λ devices element,
       try_except
         (d ← call_read (Call_Element_get_device element field)
                        (Element_get_device element field);
          mret (devices ++ [d]))
         (λ x, match x with
               | KeyError => Some (mret devices)
               | _ => None
               end))
    acc s
  = (Ok (acc ++ omap (λ e, found (Element_get_device e field (world s))) l),
     {| self := self s; world := world s;
        calls := calls s ++ ((λ e, Call_Element_get_device e field) <$> l) |}).
Proof.
  revert acc s. induction l as [|el l IH]; intros acc s Hl; simpl.
  - rewrite run_ret, !app_nil_r. by destruct s.
  - rewrite run_bind. unfold try_except at 1, call_read, call. run.
    assert (Hrest : ∀ e, e ∈ l →
              (∃ d, Element_get_device e field (world s) = Ok d)
              ∨ Element_get_device e field (world s) = Raise KeyError)
      by (intros e He; apply Hl; by right).
    destruct (Hl el) as [[d Hd]|Hd]; [by left|..]; rewrite Hd; run;
      rewrite IH by exact Hrest; simpl; by rewrite <- !app_assoc.
Qed.

(** C7: when each element of the family either has a device on the
    field or fails the lookup with KeyError, [get_element_devices]
    returns, in lattice order, the devices of exactly the elements whose
    lookup succeeds and raises nothing, and [get_element_device_names]
    returns the names of those devices in the same order. *)
Theorem get_element_devices_spec family field s :
  let fam := family_of family (_lattice (self s)) in
  let devs := omap (λ e, found (Element_get_device e field (world s))) fam in
  (∀ e, e ∈ fam →
     (∃ d, Element_get_device e field (world s) = Ok d)
     ∨ Element_get_device e field (world s) = Raise KeyError) →
  (get_element_devices family field s).1 = Ok devs
  ∧ (get_element_device_names family field s).1 = Ok (Device_name <$> devs).
Proof.
  intros fam devs Hfam.
  assert (Hrun : get_element_devices family field s
                 = (Ok devs,
                    {| self := self s; world := world s;
                       calls := calls s
                         ++ ((λ e, Call_Element_get_device e field) <$> fam) |})).
  { unfold get_element_devices. rewrite run_bind, get_elements_run. simpl.
    rewrite (filter_all (in_cell None)) by (intros ?; exact I).
    by rewrite devices_loop. }
  split.
  - by rewrite Hrun.
  - unfold get_element_device_names. by rewrite run_bind, Hrun.
Qed.

(** *** What the queries leave alone *)

Lemma keeps_ret {A} (a : A) : keeps_self (mret a : Py State A).
Proof. by intros s. Qed.

Lemma keeps_raise {A} (x : exn) : keeps_self (raise x : Py State A).
Proof. by intros s. Qed.

Lemma keeps_of_res {A} (r : Res A) : keeps_self (of_res r : Py State A).
Proof. by intros s. Qed.

Lemma keeps_get_self : keeps_self get_self.
Proof. by intros s. Qed.

Lemma keeps_getitem {V} (d : gmap string V) (k : string) :
  keeps_self (getitem d k : Py State V).
Proof. intros s. unfold getitem. by destruct (d !! k). Qed.

Lemma keeps_call {X} (ev : Event) (method : World → Res X * World) :
  keeps_self (call ev method).
Proof. by intros s. Qed.

Lemma keeps_call_read {X} (ev : Event) (method : World → Res X) :
  keeps_self (call_read ev method).
Proof. by intros s. Qed.

Lemma keeps_bind {A B} (m : Py State A) (f : A → Py State B) :
  keeps_self m → (∀ a, keeps_self (f a)) → keeps_self (m ≫= f).
Proof.
  intros Hm Hf s. rewrite run_bind. specialize (Hm s).
  destruct (m s) as [[a|x] s']; simpl in *; [|done].
  by rewrite Hf.
Qed.

Lemma keeps_try {A} (body : Py State A) (handler : exn → option (Py State A)) :
  keeps_self body →
  (∀ x h, handler x = Some h → keeps_self h) →
  keeps_self (try_except body handler).
Proof.
  intros Hb Hh s. unfold try_except. specialize (Hb s).
  destruct (body s) as [[a|x] s']; simpl in *; [done|].
  destruct (handler x) as [h|] eqn:Hx; [|done].
  by rewrite (Hh x h Hx).
Qed.

Lemma keeps_for_each {A B} (l : list A) (body : B → A → Py State B) acc :
  (∀ acc x, keeps_self (body acc x)) → keeps_self (for_each l body acc).
Proof.
  intros Hbody. revert acc. induction l as [|x l IH]; intros acc; simpl.
  - apply keeps_ret.
  - apply keeps_bind; [apply Hbody|apply IH].
Qed.

Lemma keeps_get_s_scan (l : list Element) elem (s_pos : Num) :
  keeps_self (get_s_scan l elem s_pos).
Proof.
  revert s_pos. induction l as [|el l IH]; intros s_pos; simpl.
  - apply keeps_raise.
  - destruct (decide (el ≠ elem)); [apply IH|apply keeps_ret].
Qed.

Create HintDb keeps.
Hint Resolve keeps_ret keeps_raise keeps_of_res keeps_get_self
  keeps_getitem keeps_call keeps_call_read keeps_get_s_scan : keeps.

(** Take a computation apart down to the steps above. *)
Ltac keeps :=
  repeat first
    [ solve [auto with keeps]
    | apply keeps_bind; [|intros ?]
    | apply keeps_for_each; intros ? ?
    | apply keeps_try; [|intros [] ? ?; simplify_eq]
    | case_match ].

Lemma keeps_get_elements family cell : keeps_self (get_elements family cell).
Proof. unfold get_elements. keeps. Qed.

Lemma keeps_get_s elem : keeps_self (get_s elem).
Proof. unfold get_s. keeps. Qed.

Lemma keeps_get_element_devices family field :
  keeps_self (get_element_devices family field).
Proof.
  unfold get_element_devices.
  apply keeps_bind; [apply keeps_get_elements|intros ?]. keeps.
Qed.

(** C9: every query of the lattice leaves the lattice's own state (its
    name, element sequence, energy, model table and unit-conversion
    table) unchanged, whether it returns or raises. *)
Theorem queries_keep_self :
  (∀ field handle units model,
     keeps_self (get_value field handle units model))
  ∧ keeps_self get_fields
  ∧ (∀ field, keeps_self (get_device field))
  ∧ (∀ field, keeps_self (get_unitconv field))
  ∧ keeps_self get_energy
  ∧ keeps_self get_length
  ∧ (∀ family cell, keeps_self (get_elements family cell))
  ∧ keeps_self get_all_families
  ∧ (∀ elem, keeps_self (get_s elem))
  ∧ (∀ family, keeps_self (get_family_s family))
  ∧ (∀ family field, keeps_self (get_element_devices family field))
  ∧ (∀ family field,
       keeps_self (get_element_device_names family field))
  ∧ (∀ family field handle (dtype : option Dtype),
       keeps_self (get_element_values family field handle dtype)).
Proof.
  repeat apply conj; intros.
  - unfold get_value. keeps.
  - unfold get_fields. keeps.
  - unfold get_device. keeps.
  - unfold get_unitconv. keeps.
  - unfold get_energy. keeps.
  - unfold get_length. keeps.
  - apply keeps_get_elements.
  - unfold get_all_families. keeps.
  - apply keeps_get_s.
  - unfold get_family_s.
    apply keeps_bind; [apply keeps_get_elements|intros ?].
    apply keeps_for_each; intros ? ?.
    apply keeps_bind; [apply keeps_get_s|intros ?]. keeps.
  - apply keeps_get_element_devices.
  - unfold get_element_device_names.
    apply keeps_bind; [apply keeps_get_element_devices|intros ?]. keeps.
  - unfold get_element_values.
    apply keeps_bind; [apply keeps_get_elements|intros ?]. keeps.
Qed.

(** The registrations, by contrast, do write to the lattice. *)
Lemma add_element_appends element s :
  _lattice (self (add_element element s).2) = _lattice (self s) ++ [element].
Proof. reflexivity. Qed.

(** *** The sequence protocol *)

Lemma add_elements_run (new : list Element) s :
  add_elements new s
  = (Ok tt,
     {| self := {| name := name (self s);
                   _lattice := _lattice (self s) ++ new;
                   _energy := _energy (self s);
                   _models := _models (self s);
                   _uc := _uc (self s) |};
        world := world s; calls := calls s |}).
Proof.
  unfold add_elements. revert s.
  induction new as [|element new IH]; intros s; simpl.
  - rewrite run_ret, app_nil_r. by destruct s as [[] ? ?].
  - rewrite run_bind. unfold add_element at 1, get_self, set_self. run.
    rewrite IH. simpl. by rewrite <- app_assoc.
Qed.

(** Indexing inside the list, from the front. *)
Lemma getitem_front (i : nat) e s :
  _lattice (self s) !! i = Some e →
  __getitem__ (Z.of_nat i) s = (Ok e, s).
Proof.
  intros Hi. pose proof (lookup_lt_Some _ _ _ Hi) as Hlt.
  unfold __getitem__, get_self. run.
  destruct (decide (Z.of_nat i < 0)%Z); [lia|].
  destruct (decide (_ ≤ _ < _)%Z); [|lia].
  by rewrite Nat2Z.id, Hi.
Qed.

(** Indexing inside the list, from the back. *)
Lemma getitem_back (n : Z) e s :
  (n < 0)%Z →
  _lattice (self s) !! Z.to_nat (Z.of_nat (length (_lattice (self s))) + n)
  = Some e →
  (0 ≤ Z.of_nat (length (_lattice (self s))) + n)%Z →
  __getitem__ n s = (Ok e, s).
Proof.
  intros Hn He Hlow. pose proof (lookup_lt_Some _ _ _ He) as Hlt.
  unfold __getitem__, get_self. run.
  destruct (decide (n < 0)%Z); [|lia].
  destruct (decide (_ ≤ _ < _)%Z); [|lia].
  by rewrite Z.add_comm, He.
Qed.

(** X1: after one [add_element] call per element of a list, the lattice
    is that many elements longer, the new elements sit behind the old
    ones in the order they were added, and every old element keeps its
    index. *)
Theorem add_element_sequence (new : list Element) s :
  let s' := (add_elements new s).2 in
  let old := _lattice (self s) in
  (add_elements new s).1 = Ok tt
  ∧ __len__ s' = (Ok (length old + length new), s')
  ∧ (∀ i e, new !! i = Some e →
       __getitem__ (Z.of_nat (length old + i)) s' = (Ok e, s'))
  ∧ (∀ i e, old !! i = Some e →
       __getitem__ (Z.of_nat i) s' = (Ok e, s')).
Proof.
  intros s' old. subst s' old. rewrite add_elements_run. simpl.
  repeat apply conj.
  - reflexivity.
  - unfold __len__, get_self. run. by rewrite length_app.
  - intros i e Hi. apply getitem_front. simpl.
    rewrite lookup_app_r by lia.
    by replace (length (_lattice (self s)) + i - length (_lattice (self s)))
      with i by lia.
  - intros i e Hi. apply getitem_front. simpl.
    by apply lookup_app_l_Some.
Qed.

(** X2: [lattice[n]] is the element at position [n] for [0 <= n < len],
    the element at position [len + n] for [-len <= n < 0] (so
    [lattice[-1]] is the last element), and raises IndexError for every
    other [n], in particular for every [n] on an empty lattice. *)
Theorem getitem_bounds (n : Z) s :
  let lattice := _lattice (self s) in
  let len := Z.of_nat (length lattice) in
  ((0 ≤ n < len)%Z →
   ∃ e, lattice !! Z.to_nat n = Some e ∧ __getitem__ n s = (Ok e, s))
  ∧ ((- len ≤ n < 0)%Z →
     ∃ e, lattice !! Z.to_nat (len + n) = Some e
          ∧ __getitem__ n s = (Ok e, s))
  ∧ ((n < - len ∨ len ≤ n)%Z → __getitem__ n s = (Raise IndexError, s))
  ∧ (∀ e, last lattice = Some e → __getitem__ (-1) s = (Ok e, s)).
Proof.
  intros lattice len. subst len lattice. repeat apply conj.
  - intros Hn.
    destruct (lookup_lt_is_Some_2 (_lattice (self s)) (Z.to_nat n))
      as [e He]; [lia|].
    exists e. split; [exact He|].
    rewrite <- (Z2Nat.id n) by lia. by apply getitem_front.
  - intros Hn.
    destruct (lookup_lt_is_Some_2 (_lattice (self s))
                (Z.to_nat (Z.of_nat (length (_lattice (self s))) + n)))
      as [e He]; [lia|].
    exists e. split; [exact He|]. apply getitem_back; [lia|exact He|lia].
  - intros Hn. unfold __getitem__, get_self. run.
    destruct (decide (n < 0)%Z);
      (destruct (decide (_ ≤ _ < _)%Z); [lia|reflexivity]).
  - intros e He. rewrite last_lookup in He.
    pose proof (lookup_lt_Some _ _ _ He) as Hlt.
    apply getitem_back; [lia| |lia].
    by replace (Z.to_nat (Z.of_nat (length (_lattice (self s))) + -1))
      with (pred (length (_lattice (self s)))) by lia.
Qed.

(** *** Errors of the single-value methods *)

(** A [try] whose clauses catch [bad] and never raise it does not
    raise it. *)
Lemma try_except_never {A} (body : Py State A) handler (bad : exn) s :
  is_Some (handler bad) →
  (∀ x h s', handler x = Some h → (h s').1 ≠ Raise bad) →
  (try_except body handler s).1 ≠ Raise bad.
Proof.
  intros [h0 Hbad] Hh. unfold try_except.
  destruct (body s) as [[a|x] s']; simpl; [done|].
  destruct (handler x) as [h|] eqn:Hx; [by eapply Hh|].
  simpl. intros [= ->]. congruence.
Qed.

(** X3: neither [get_value] nor [set_value] ever lets a KeyError out:
    every lookup miss inside them, and every KeyError a collaborator
    raises under them, reaches the caller under another class. *)
Theorem value_access_never_KeyError field (value : Value) handle units model s :
  (get_value field handle units model s).1 ≠ Raise KeyError
  ∧ (set_value field value handle units model s).1 ≠ Raise KeyError.
Proof.
  split.
  - unfold get_value. apply try_except_never; [by eexists|].
    intros [] h s' [= <-]; done.
  - unfold set_value. destruct (decide (handle ≠ SP)); [done|].
    rewrite run_bind.
    pose proof (try_except_never
                  (l ← get_self; getitem (_models l) model)
                  (λ x, match x with
                        | KeyError => Some (raise DeviceException)
                        | _ => None
                        end) KeyError s) as Hfirst.
    destruct (try_except _ _ s) as [[m|x] s1].
    + apply try_except_never; [by eexists|].
      intros [] h s' [= <-]; done.
    + simpl. intros [= ->]. apply Hfirst; [by eexists| |reflexivity].
      intros [] h s' [= <-]; done.
Qed.

(** X4: [get_value] under a model key that is not registered raises
    DeviceException without having called any collaborator. *)
Theorem get_value_unknown_model field handle units model s :
  _models (self s) !! model = None →
  get_value field handle units model s = (Raise DeviceException, s).
Proof.
  intros Hm. unfold get_value, try_except, get_self, getitem.
  run. by rewrite Hm.
Qed.

(** X5: when the model's [get_value] raises, [get_value] raises
    FieldException for a FieldException, DeviceException for a
    KeyError, and the model's own exception otherwise; the unit
    conversion is not called. *)
Theorem get_value_model_raises field handle units model s m x w :
  _models (self s) !! model = Some m →
  Model_get_value m field handle (world s) = (Raise x, w) →
  get_value field handle units model s
  = (Raise (get_value_wraps x),
     {| self := self s; world := w;
        calls := calls s ++ [Call_Model_get_value m field handle] |}).
Proof.
  intros Hm Hx. unfold get_value, try_except, get_self, getitem, call.
  run. rewrite Hm. run. rewrite Hx. simpl. by destruct x.
Qed.

(** X6: when the conversion of a value read from the model raises,
    [get_value] raises FieldException for a FieldException,
    DeviceException for a KeyError, and the conversion's own exception
    otherwise. *)
Theorem get_value_convert_raises field handle units model s m uc (v : Value) w x :
  _models (self s) !! model = Some m →
  Model_get_value m field handle (world s) = (Ok v, w) →
  _uc (self s) !! field = Some uc →
  UnitConv_convert uc v (Model_units m) units = Raise x →
  (get_value field handle units model s).1 = Raise (get_value_wraps x).
Proof.
  intros Hm Hv Huc Hx.
  unfold get_value, try_except, get_self, getitem, call_read, call.
  run. rewrite Hm. run. rewrite Hv. run. rewrite Huc. run.
  rewrite Hx. by destruct x.
Qed.

(** X7: [set_value] through [pytac.SP] under a model key that is not
    registered raises DeviceException without having called any
    collaborator. *)
Theorem set_value_unknown_model field (value : Value) units model s :
  _models (self s) !! model = None →
  set_value field value SP units model s = (Raise DeviceException, s).
Proof.
  intros Hm. unfold set_value.
  destruct (decide (SP ≠ SP)) as [Hne|_]; [by destruct Hne|].
  unfold try_except, get_self, getitem. run. by rewrite Hm.
Qed.

(** X8: [set_value] through [pytac.SP] on a field without a unit
    conversion raises FieldException (where [get_value] raises
    DeviceException) and the model's [set_value] is not called: nothing
    is written. *)
Theorem set_value_no_unitconv field (value : Value) units model s m :
  _models (self s) !! model = Some m →
  _uc (self s) !! field = None →
  set_value field value SP units model s = (Raise FieldException, s).
Proof.
  intros Hm Huc. unfold set_value.
  destruct (decide (SP ≠ SP)) as [Hne|_]; [by destruct Hne|].
  unfold try_except, get_self, getitem. run. rewrite Hm. run.
  by rewrite Huc.
Qed.

(** X9: when the conversion raises, [set_value] raises FieldException
    for a KeyError or a FieldException and the conversion's own
    exception otherwise, and the model's [set_value] is not called: the
    world is as before. *)
Theorem set_value_convert_raises field (value : Value) units model s m uc x :
  _models (self s) !! model = Some m →
  _uc (self s) !! field = Some uc →
  UnitConv_convert uc value units (Model_units m) = Raise x →
  set_value field value SP units model s
  = (Raise (set_value_wraps x),
     {| self := self s; world := world s;
        calls := calls s
                 ++ [Call_UnitConv_convert uc value units (Model_units m)] |}).
Proof.
  intros Hm Huc Hx. unfold set_value.
  destruct (decide (SP ≠ SP)) as [Hne|_]; [by destruct Hne|].
  unfold try_except, get_self, getitem, call_read, call.
  run. rewrite Hm. run. rewrite Huc. run. rewrite Hx. simpl.
  by destruct x.
Qed.

(** X10: when the model's [set_value] raises, [set_value] raises
    FieldException for a KeyError or a FieldException and the model's
    own exception otherwise; the model was handed the converted value. *)
Theorem set_value_model_raises field (value y : Value) units model s m uc x w :
  _models (self s) !! model = Some m →
  _uc (self s) !! field = Some uc →
  UnitConv_convert uc value units (Model_units m) = Ok y →
  Model_set_value m field y (world s) = (Raise x, w) →
  set_value field value SP units model s
  = (Raise (set_value_wraps x),
     {| self := self s; world := w;
        calls := (calls s
                  ++ [Call_UnitConv_convert uc value units (Model_units m)])
                 ++ [Call_Model_set_value m field y] |}).
Proof.
  intros Hm Huc Hy Hx. unfold set_value.
  destruct (decide (SP ≠ SP)) as [Hne|_]; [by destruct Hne|].
  unfold try_except, get_self, getitem, call_read, call.
  run. rewrite Hm. run. rewrite Huc. run. rewrite Hy. run.
  rewrite Hx. simpl. by destruct x.
Qed.

(** X11: [set_value] and [set_element_values] write through the
    collaborators only: the lattice's own name, element sequence,
    energy, model table and unit-conversion table are the same after the
    call, whether it returns or raises. *)
Theorem setters_keep_self :
  (∀ field (value : Value) handle units model,
     keeps_self (set_value field value handle units model))
  ∧ (∀ family field (values : list Value),
       keeps_self (set_element_values family field values)).
Proof.
  split; intros.
  - unfold set_value. keeps.
  - unfold set_element_values.
    apply keeps_bind; [apply keeps_get_elements|intros ?]. keeps.
Qed.

(** *** Registration *)

(** X12: [add_device] on a lattice without a model under [pytac.LIVE]
    raises a raw KeyError and registers nothing: the store is as
    before. *)
Theorem add_device_no_live_model field (device : Device) (uc : UnitConv) s :
  _models (self s) !! LIVE = None →
  add_device field device uc s = (Raise KeyError, s).
Proof.
  intros Hm. unfold add_device, get_self, getitem. run. by rewrite Hm.
Qed.

(** X13: when the live model's [add_device] raises, [add_device] raises
    the same exception and the unit conversion is not stored: the
    lattice is as before. *)
Theorem add_device_model_raises field (device : Device) (uc : UnitConv) s m x w :
  _models (self s) !! LIVE = Some m →
  Model_add_device m field device (world s) = (Raise x, w) →
  (add_device field device uc s).1 = Raise x
  ∧ self (add_device field device uc s).2 = self s.
Proof.
  intros Hm Hx. unfold add_device, get_self, getitem, call.
  run. rewrite Hm. run. by rewrite Hx.
Qed.

(** Run a computation without unfolding the dict operations. *)
Ltac run_dicts :=
  repeat (progress (rewrite ?run_bind, ?run_ret;
                    cbn [fst snd self world calls
                         name _lattice _energy _models _uc])).

(** X14: after an [add_device] that the live model accepts,
    [get_unitconv] of that field returns the conversion just given
    (replacing an earlier one), [get_unitconv] of every other field
    answers as before, and the element sequence and the model table are
    untouched. *)
Theorem add_device_get_unitconv field (device : Device) (uc : UnitConv) s m w :
  _models (self s) !! LIVE = Some m →
  Model_add_device m field device (world s) = (Ok tt, w) →
  let s' := (add_device field device uc s).2 in
  (add_device field device uc s).1 = Ok tt
  ∧ get_unitconv field s' = (Ok uc, s')
  ∧ (∀ other, other ≠ field →
       (get_unitconv other s').1 = (get_unitconv other s).1)
  ∧ _lattice (self s') = _lattice (self s)
  ∧ _models (self s') = _models (self s)
  ∧ calls s' = calls s ++ [Call_Model_add_device m field device].
Proof.
  intros Hm Hok s'. subst s'.
  unfold add_device, get_unitconv, get_self, set_self, getitem, call.
  run_dicts. rewrite Hm. run_dicts. rewrite Hok. run_dicts.
  repeat apply conj; try reflexivity.
  - by rewrite (lookup_insert_eq (_uc (self s))).
  - intros other Hne. run_dicts.
    rewrite (lookup_insert_ne (_uc (self s))) by done.
    by destruct (_uc (self s) !! other).
Qed.

(** X15: [set_model] makes the model the one its key resolves to, the
    last registration under a key winning: after [set_model(m,
    pytac.LIVE)], whatever was registered before, [get_device] asks [m];
    a registration under another key does not change what [get_device]
    answers. *)
Theorem set_model_get_device (m : Model) field s :
  (get_device field (set_model m LIVE s).2).1
  = Model_get_device m field (world s)
  ∧ (∀ m0 : Model,
       (get_device field (set_model m LIVE (set_model m0 LIVE s).2).2).1
       = Model_get_device m field (world s))
  ∧ (∀ key, key ≠ LIVE →
       (get_device field (set_model m key s).2).1 = (get_device field s).1).
Proof.
  unfold get_device, set_model, get_self, set_self, getitem, call_read, call.
  repeat apply conj.
  - run_dicts. rewrite (lookup_insert_eq (_models (self s))). by run_dicts.
  - intros m0. run_dicts. rewrite (lookup_insert_eq (<[LIVE:=m0]> _)).
    by run_dicts.
  - intros key Hne. run_dicts.
    rewrite (lookup_insert_ne (_models (self s))) by done.
    destruct (_models (self s) !! LIVE); by run_dicts.
Qed.

(** X16: a model registered with [set_model] is the one [get_value]
    reads under that key: the call no longer fails for an unknown model
    key but reaches the model's [get_value]. *)
Theorem set_model_get_value (m : Model) key field handle units s :
  ∃ rest,
    calls (get_value field handle units key (set_model m key s).2).2
    = calls s ++ Call_Model_get_value m field handle :: rest.
Proof.
  unfold get_value, try_except, set_model, get_self, set_self, getitem,
    call_read, call.
  run_dicts. rewrite (lookup_insert_eq (_models (self s))). run_dicts.
  destruct (Model_get_value m field handle (world s)) as [[v|x] w];
    run_dicts.
  - destruct (_uc (self s) !! field) as [uc|]; run_dicts.
    + destruct (UnitConv_convert uc v (Model_units m) units) as [v'|x];
        run_dicts.
      * eexists. by rewrite <- app_assoc.
      * destruct x; run_dicts; eexists; by rewrite <- app_assoc.
    + by exists [].
  - destruct x; run_dicts; by exists [].
Qed.

(** *** Families and positions *)

Lemma elem_of_union_families (l : list Element) (acc : gset string) f :
  f ∈ fold_left (λ families element, families ∪ Element_families element) l acc
  ↔ f ∈ acc ∨ ∃ e, e ∈ l ∧ f ∈ Element_families e.
Proof.
  revert acc. induction l as [|el l IH]; intros acc; simpl.
  - split; [by left|]. intros [?|(e & He & _)]; [done|].
    by apply elem_of_nil in He.
  - rewrite IH, elem_of_union. split.
    + intros [[?|?]|(e & He & Hf)]; [by left|right..].
      * exists el. split; [left|done].
      * exists e. split; [by right|done].
    + intros [?|(e & He & Hf)]; [by left; left|].
      apply elem_of_cons in He as [->|He]; [by left; right|].
      right. by exists e.
Qed.

Lemma get_all_families_run s :
  get_all_families s
  = (Ok (fold_left (λ families element, families ∪ Element_families element)
           (_lattice (self s)) ∅), s).
Proof.
  unfold get_all_families, get_self. rewrite run_bind. simpl.
  by rewrite for_each_pure.
Qed.

(** X17: [get_all_families] returns exactly the tags carried by some
    element of the lattice: the empty set for an empty lattice, and no
    tag that no element has. *)
Theorem get_all_families_spec s :
  ∃ families,
    get_all_families s = (Ok families, s)
    ∧ ∀ f, f ∈ families
           ↔ ∃ e, e ∈ _lattice (self s) ∧ f ∈ Element_families e.
Proof.
  eexists. split; [apply get_all_families_run|].
  intros f. rewrite elem_of_union_families. split.
  - intros [Hf|?]; [|done]. by apply elem_of_empty in Hf.
  - by right.
Qed.

(** X18: a family is one of [get_all_families()] exactly when
    [get_elements] of that family is not empty. *)
Theorem family_listed_iff_has_elements (F : string) s :
  ∃ families members,
    get_all_families s = (Ok families, s)
    ∧ get_elements (Some F) None s = (Ok members, s)
    ∧ (F ∈ families ↔ members ≠ []).
Proof.
  do 2 eexists. split; [apply get_all_families_run|].
  split; [apply get_elements_run|].
  rewrite (filter_all (in_cell None)) by (intros ?; exact I).
  rewrite elem_of_union_families. unfold family_of. split.
  - intros [Hf|(e & He & Hf)]; [by apply elem_of_empty in Hf|].
    intros Hnil.
    assert (Hin : e ∈ filter (in_family (Some F)) (_lattice (self s)))
      by (by apply list_elem_of_filter).
    rewrite Hnil in Hin. by apply elem_of_nil in Hin.
  - intros Hne. right.
    destruct (filter (in_family (Some F)) (_lattice (self s)))
      as [|e rest] eqn:Hfam; [done|].
    assert (Hin : e ∈ filter (in_family (Some F)) (_lattice (self s)))
      by (rewrite Hfam; left).
    apply list_elem_of_filter in Hin as [Hf He]. by exists e.
Qed.

Lemma before_not_in elem (l : list Element) : elem ∉ before elem l.
Proof.
  induction l as [|el l IH]; simpl; [apply not_elem_of_nil|].
  destruct (decide (el = elem)) as [->|Hne]; [apply not_elem_of_nil|].
  rewrite not_elem_of_cons. split; [congruence|done].
Qed.

Lemma before_split elem (l : list Element) :
  elem ∈ l → ∃ post, l = before elem l ++ elem :: post.
Proof.
  induction l as [|el l IH]; intros Hin; simpl.
  - by apply elem_of_nil in Hin.
  - destruct (decide (el = elem)) as [->|Hne]; [by exists l|].
    apply elem_of_cons in Hin as [->|Hin]; [done|].
    destruct (IH Hin) as [post Hpost]. exists post. simpl. by f_equal.
Qed.

Lemma get_s_run_member elem s :
  elem ∈ _lattice (self s) →
  get_s elem s = (Ok (sum_lengths (before elem (_lattice (self s)))), s).
Proof.
  intros Hin. destruct (before_split elem _ Hin) as [post Hpost].
  apply (get_s_run_found _ post); [exact Hpost|apply before_not_in].
Qed.

(** X19: [get_s(e)] returns exactly when [e] is in the lattice, and
    then gives the sum of the lengths before the first place [e]
    occupies, also when the same element was added more than once. *)
Theorem get_s_first_occurrence e s :
  ((∃ s_pos, (get_s e s).1 = Ok s_pos) ↔ e ∈ _lattice (self s))
  ∧ (e ∈ _lattice (self s) →
     get_s e s = (Ok (sum_lengths (before e (_lattice (self s)))), s)).
Proof.
  split; [|apply get_s_run_member]. split.
  - intros [s_pos Hs]. destruct (decide (e ∈ _lattice (self s))); [done|].
    unfold get_s in Hs. rewrite run_bind in Hs. simpl in Hs.
    by rewrite get_s_scan_missing in Hs.
  - intros Hin. rewrite get_s_run_member by done. by eexists.
Qed.

(** The position loop of [get_family_s] over elements of the lattice. *)
Lemma family_s_loop (l : list Element) (acc : list Num) s :
  (∀ e, e ∈ l → e ∈ _lattice (self s)) →
  for_each l
    (λ s_positions element,
       s_pos ← get_s element; mret (s_positions ++ [s_pos]))
    acc s
  = (Ok (acc ++ ((λ e, sum_lengths (before e (_lattice (self s)))) <$> l)),
     s).
Proof.
  revert acc. induction l as [|el l IH]; intros acc Hl; simpl.
  - by rewrite run_ret, app_nil_r.
  - rewrite !run_bind, get_s_run_member by (apply Hl; left).
    rewrite run_ret, IH by (intros e He; apply Hl; by right).
    by rewrite <- app_assoc.
Qed.

(** X20: [get_family_s] never raises: it returns one position per
    element of the family, in lattice order, each the sum of the lengths
    before that element's first place in the lattice. *)
Theorem get_family_s_spec family s :
  get_family_s family s
  = (Ok ((λ e, sum_lengths (before e (_lattice (self s))))
         <$> family_of family (_lattice (self s))), s).
Proof.
  unfold get_family_s. rewrite run_bind, get_elements_run.
  rewrite (filter_all (in_cell None)) by (intros ?; exact I).
  rewrite family_s_loop; [reflexivity|].
  intros e He. unfold family_of in He.
  by apply list_elem_of_filter in He as [_ He].
Qed.

(** X21: appending an element adds its length to [get_length()], puts
    it (when it was not in the lattice yet) at the s position that was
    the length before, and moves no element already there. *)
Theorem add_element_positions element s :
  let s' := (add_element element s).2 in
  ∃ total,
    get_length s = (Ok total, s)
    ∧ get_length s' = (Ok (num_add total (Element_length element)), s')
    ∧ (element ∉ _lattice (self s) → get_s element s' = (Ok total, s'))
    ∧ (∀ e, e ∈ _lattice (self s) → (get_s e s').1 = (get_s e s).1).
Proof.
  intros s'. exists (sum_lengths (_lattice (self s))).
  assert (Hs' : _lattice (self s') = _lattice (self s) ++ [element])
    by reflexivity.
  repeat apply conj.
  - apply get_length_run.
  - by rewrite get_length_run, Hs', sum_lengths_snoc.
  - intros Hnew. by apply (get_s_run_found _ []).
  - intros e He. destruct (before_split e _ He) as [post Hpost].
    rewrite (get_s_run_member e s He).
    rewrite (get_s_run_found (before e (_lattice (self s)))
               (post ++ [element]) e s'); [reflexivity| |apply before_not_in].
    rewrite Hs'. rewrite Hpost at 1. by rewrite <- app_assoc.
Qed.

(** *** Reading whole families *)

(** A loop over two runs is the loop over the first, then, if that
    returned, the loop over the second. *)
Lemma for_each_app {A B} (l1 l2 : list A) (body : B → A → Py State B) acc s :
  for_each (l1 ++ l2) body acc s
  = match for_each l1 body acc s with
    | (Ok acc', s') => for_each l2 body acc' s'
    | (Raise x, s') => (Raise x, s')
    end.
Proof.
  revert acc s. induction l1 as [|a l1 IH]; intros acc s; simpl.
  - reflexivity.
  - rewrite !run_bind. destruct (body acc a s) as [[acc'|x] s']; [apply IH|done].
Qed.

(** X22: [get_element_devices] passes over KeyError only: when the
    lookups of the family elements before some element find a device or
    raise KeyError and that element's lookup raises anything else,
    [get_element_devices] raises that exception and returns no list. *)
Theorem get_element_devices_propagates family field s pre e post x :
  family_of family (_lattice (self s)) = pre ++ e :: post →
  (∀ e', e' ∈ pre →
     (∃ d, Element_get_device e' field (world s) = Ok d)
     ∨ Element_get_device e' field (world s) = Raise KeyError) →
  Element_get_device e field (world s) = Raise x →
  x ≠ KeyError →
  (get_element_devices family field s).1 = Raise x.
Proof.
  intros Hfam Hpre Hx Hne. unfold get_element_devices.
  rewrite run_bind, get_elements_run. simpl.
  rewrite (filter_all (in_cell None)) by (intros ?; exact I).
  rewrite Hfam, for_each_app, devices_loop by exact Hpre.
  simpl. rewrite run_bind. unfold try_except at 1, call_read, call. run.
  rewrite Hx. simpl. by destruct x.
Qed.

(** The value loop over elements whose [get_value] returns and leaves
    the world as it is. *)
Lemma values_loop field handle (val : Element → Value)
    (l : list Element) (acc : list Value) s :
  (∀ e, e ∈ l →
     Element_get_value e field handle (world s) = (Ok (val e), world s)) →
  for_each l
    (λ values element,
       v ← call (Call_Element_get_value element field handle)
                (Element_get_value element field handle);
       mret (values ++ [v]))
    acc s
  = (Ok (acc ++ (val <$> l)),
     {| self := self s; world := world s;
        calls := calls s
                 ++ ((λ e, Call_Element_get_value e field handle) <$> l) |}).
Proof.
  revert acc s. induction l as [|el l IH]; intros acc s Hl; simpl.
  - rewrite run_ret, !app_nil_r. by destruct s.
  - rewrite !run_bind. unfold call at 1. simpl.
    rewrite (Hl el) by left. run.
    rewrite IH by (intros e He; simpl; apply Hl; by right).
    simpl. by rewrite <- !app_assoc.
Qed.

(** X23: when each element of the family answers [get_value(field,
    handle)] with a value and leaves the world as it is,
    [get_element_values] returns those values in lattice order, one per
    family element: as a list when no dtype is given, and as whatever
    [numpy.array] makes of that same list (or raises) when one is. *)
Theorem get_element_values_spec family field handle (val : Element → Value) s :
  let fam := family_of family (_lattice (self s)) in
  (∀ e, e ∈ fam →
     Element_get_value e field handle (world s) = (Ok (val e), world s)) →
  (get_element_values family field handle None s).1
  = Ok (AsList (val <$> fam))
  ∧ (∀ dt : Dtype,
       (get_element_values family field handle (Some dt) s).1
       = match numpy_array (val <$> fam) dt with
         | Ok a => Ok (AsArray a)
         | Raise x => Raise x
         end)
  ∧ calls (get_element_values family field handle None s).2
    = calls s ++ ((λ e, Call_Element_get_value e field handle) <$> fam).
Proof.
  intros fam Hfam.
  assert (Hrun : ∀ dtype : option Dtype,
            get_element_values family field handle dtype s
            = match dtype with
              | Some dt => a ← of_res (numpy_array (val <$> fam) dt);
                           mret (AsArray a)
              | None => mret (AsList (val <$> fam))
              end
                {| self := self s; world := world s;
                   calls := calls s
                     ++ ((λ e, Call_Element_get_value e field handle)
                         <$> fam) |}).
  { intros dtype. unfold get_element_values.
    rewrite !run_bind, get_elements_run. simpl.
    rewrite (filter_all (in_cell None)) by (intros ?; exact I).
    fold fam.
    by rewrite !run_bind, (values_loop field handle val) by exact Hfam. }
  repeat apply conj.
  - by rewrite Hrun.
  - intros dt. rewrite Hrun, run_bind. unfold of_res.
    by destruct (numpy_array (val <$> fam) dt).
  - by rewrite Hrun.
Qed.

(** X24: [get_element_values] passes over nothing: when a family
    element's [get_value] raises (a KeyError included) after the
    elements before it answered, [get_element_values] raises that
    exception, whatever the dtype. *)
Theorem get_element_values_propagates family field handle
    (dtype : option Dtype) (val : Element → Value) s pre e post x w :
  family_of family (_lattice (self s)) = pre ++ e :: post →
  (∀ e', e' ∈ pre →
     Element_get_value e' field handle (world s) = (Ok (val e'), world s)) →
  Element_get_value e field handle (world s) = (Raise x, w) →
  (get_element_values family field handle dtype s).1 = Raise x.
Proof.
  intros Hfam Hpre Hx. unfold get_element_values.
  rewrite !run_bind, get_elements_run. simpl.
  rewrite (filter_all (in_cell None)) by (intros ?; exact I).
  rewrite !run_bind, Hfam, for_each_app.
  rewrite (values_loop field handle val) by exact Hpre.
  simpl. rewrite run_bind. unfold call at 1. run. by rewrite Hx.
Qed.

(** The field loop of [get_fields] over keys of the model table whose
    models answer. *)
Lemma fields_loop (d : gmap string Model) (keys : list string)
    (acc : gset string) s :
  (∀ k, k ∈ keys →
     ∃ m fs, d !! k = Some m ∧ Model_get_fields m (world s) = Ok fs) →
  ∃ fields s',
    for_each keys
      (λ fields model,
         m ← getitem d model;
         fs ← call_read (Call_Model_get_fields m) (Model_get_fields m);
         mret (fields ∪ fs))
      acc s
    = (Ok fields, s')
    ∧ self s' = self s ∧ world s' = world s
    ∧ ∀ f, f ∈ fields
           ↔ f ∈ acc
             ∨ ∃ k m fs, k ∈ keys ∧ d !! k = Some m
                         ∧ Model_get_fields m (world s) = Ok fs ∧ f ∈ fs.
Proof.
  revert acc s. induction keys as [|k keys IH]; intros acc s Hkeys; simpl.
  - exists acc, s. rewrite run_ret. repeat split; [by left|].
    intros [?|(k & m & fs & Hk & _)]; [done|]. by apply elem_of_nil in Hk.
  - destruct (Hkeys k) as (m & fs & Hm & Hfs); [left|].
    rewrite run_bind. unfold getitem at 1, call_read at 1, call at 1.
    rewrite Hm. run. rewrite Hfs. simpl.
    destruct (IH (acc ∪ fs)
                {| self := self s; world := world s;
                   calls := calls s ++ [Call_Model_get_fields m] |})
      as (fields & s' & Hrun & Hself & Hworld & Hin).
    { intros k' Hk'. simpl. apply Hkeys. by right. }
    exists fields, s'. rewrite Hrun. repeat split; [done..| |].
    + rewrite Hin, elem_of_union. simpl.
      intros [[?|?]|(k' & m' & fs' & Hk' & ?)]; [by left|right..].
      * exists k, m, fs. repeat split; [left|done..].
      * exists k', m', fs'. split; [by right|done].
    + rewrite Hin, elem_of_union. simpl.
      intros [?|(k' & m' & fs' & Hk' & Hm' & Hfs' & Hf)]; [by left; left|].
      apply elem_of_cons in Hk' as [->|Hk'].
      * left. right. congruence.
      * right. by exists k', m', fs'.
Qed.

(** X25: when every registered model answers [get_fields()],
    [get_fields] returns exactly the fields that some registered model
    reports (none for a lattice without models), with the lattice and
    the world as before. *)
Theorem get_fields_spec s :
  (∀ key m, _models (self s) !! key = Some m →
     ∃ fs, Model_get_fields m (world s) = Ok fs) →
  ∃ fields s',
    get_fields s = (Ok fields, s')
    ∧ self s' = self s ∧ world s' = world s
    ∧ ∀ f, f ∈ fields
           ↔ ∃ key m fs, _models (self s) !! key = Some m
                         ∧ Model_get_fields m (world s) = Ok fs ∧ f ∈ fs.
Proof.
  intros Hmodels. unfold get_fields. rewrite run_bind. simpl.
  assert (Hkeys : ∀ k, k ∈ (map_to_list (_models (self s))).*1
                       → ∃ m, _models (self s) !! k = Some m).
  { intros k Hk. apply list_elem_of_fmap in Hk as ([k' m] & -> & Hk).
    apply elem_of_map_to_list in Hk. by exists m. }
  destruct (fields_loop (_models (self s))
              (map_to_list (_models (self s))).*1 ∅ s)
    as (fields & s' & Hrun & Hself & Hworld & Hin).
  { intros k Hk. destruct (Hkeys k Hk) as [m Hm].
    destruct (Hmodels k m Hm) as [fs Hfs]. by exists m, fs. }
  exists fields, s'. rewrite Hrun. repeat split; [done..| |].
  - rewrite Hin. intros [Hf|(k & m & fs & _ & ?)].
    + by apply elem_of_empty in Hf.
    + by exists k, m, fs.
  - rewrite Hin. intros (k & m & fs & Hm & ?). right.
    exists k, m, fs. split; [|done].
    apply list_elem_of_fmap. exists (k, m). split; [done|].
    by apply elem_of_map_to_list.
Qed.

End LatticeFacts.

(** ** Lengths in floating point *)

Section FloatLengths.
Context {Value Device World Element Model UnitConv : Type}.

Local Abbreviation State := (@State Value Device World Element Model UnitConv).

(** Two floats a third one tells apart are different. *)
Lemma float_apart (c a b : float) :
  PrimFloat.ltb a c = true → PrimFloat.ltb b c = false → a ≠ b.
Proof. intros Ha Hb ->. congruence. Qed.

(** C8: [get_length()] is the sum of every element's length, taken in
    lattice order starting from 0; a lattice of three elements of
    lengths 1.0, 2.0 and 3.0 has [get_length() == 6.0] and [get_s] of
    its third element is 3.0. *)
Theorem get_length_spec :
  (∀ Num (numbers : Numeric Num)
     (elements : ElementAPI Element Num Value Device World) (s : State),
     get_length s = (Ok (sum_lengths (_lattice (self s))), s))
  ∧ (∀ (elements : ElementAPI Element float Value Device World)
       (s : State) (e0 e1 e2 : Element),
       _lattice (self s) = [e0; e1; e2] →
       Element_length e0 = 1%float →
       Element_length e1 = 2%float →
       Element_length e2 = 3%float →
       (get_length s).1 = Ok 6%float ∧ (get_s e2 s).1 = Ok 3%float).
Proof.
  split.
  - intros Num numbers elements s. apply get_length_run.
  - intros elements s e0 e1 e2 Hl H0 H1 H2. split.
    + rewrite get_length_run, Hl. unfold sum_lengths. simpl.
      by rewrite H0, H1, H2.
    + rewrite (get_s_run_found [e0; e1] [] e2 s Hl).
      * unfold sum_lengths. simpl. by rewrite H0, H1.
      * assert (Element_length e0 ≠ Element_length e2)
          by (rewrite H0, H2; by apply (float_apart 3)).
        assert (Element_length e1 ≠ Element_length e2)
          by (rewrite H1, H2; by apply (float_apart 3)).
        rewrite !not_elem_of_cons. repeat split; [congruence..|].
        apply not_elem_of_nil.
Qed.

End FloatLengths.

(** ** The theorems at work on the small ring *)

Section OnTheRing.
Import Demo.

Lemma ring_distinct : NoDup (_lattice (self (start ring))).
Proof. apply (bool_decide_unpack _). vm_compute. exact I. Defined.

(** Every lookup of a device on the ring finds one or raises KeyError. *)
Lemma device_of_found_or_KeyError (e : nat) (field : string) :
  (∃ d, device_of e field = Ok d) ∨ device_of e field = Raise KeyError.
Proof.
  destruct e as [|[|[|e]]]; simpl; try case_decide; eauto.
Defined.

(** The model stores what is written and reads it back. *)
Lemma write_read (obj : nat) (field handle : string) (x : Z) (w : World) :
  (write obj field x w).1 = Ok tt
  ∧ (read obj field (write obj field x w).2).1 = Ok x.
Proof.
  split; [reflexivity|]. unfold read, write. cbn [fst snd].
  by rewrite lookup_insert_eq.
Defined.

(** Mirroring twice gives the value back. *)
Lemma mirror_twice (k x : Z) (units other : string) :
  ∃ y, UnitConv_convert k x units other = Ok y
       ∧ UnitConv_convert k y other units = Ok x.
Proof.
  eexists. split; [reflexivity|]. simpl.
  destruct (decide (units = other)) as [->|Hne].
  - by rewrite decide_True.
  - rewrite decide_False by congruence. f_equal. lia.
Defined.

(** Counterexample to C1 as stated: on the ring without unit
    conversions the live model has field x, no conversion is registered
    for x, and [get_value] ends in a DeviceException, not in a KeyError. *)
Lemma get_value_no_unitconv_not_KeyError :
  _models bare_ring !! "live" = Some live
  ∧ Model_get_value live "x" "readback" (world (start bare_ring))
    = (Ok 7%Z, world (start bare_ring))
  ∧ _uc bare_ring !! "x" = None
  ∧ (get_value "x" "readback" "engineering" "live" (start bare_ring)).1
    = Raise DeviceException
  ∧ (get_value "x" "readback" "engineering" "live" (start bare_ring)).1
    ≠ Raise KeyError.
Proof. repeat apply conj; vm_compute; congruence. Qed.

Lemma get_value_no_unitconv_witness :
  get_value "x" "readback" "engineering" "live" (start bare_ring)
  = (Raise DeviceException,
     {| self := bare_ring; world := world (start bare_ring);
        calls := [Call_Model_get_value live "x" "readback"] |}).
Proof.
  apply (get_value_no_unitconv "x" "readback" "engineering" "live"
           (start bare_ring) live 7%Z);
    vm_compute; reflexivity.
Defined.

Lemma set_value_handle_witness :
  "readback" ≠ SP
  ∧ set_value "x" 3%Z "readback" "engineering" "live" (start ring)
    = (Raise HandleException, start ring)
  ∧ set_value "y" 3%Z "readback" "furlongs" "nowhere" (start bare_ring)
    = (Raise HandleException, start bare_ring).
Proof.
  assert (Hh : "readback" ≠ SP) by (vm_compute; congruence).
  split; [exact Hh|].
  split; apply set_value_handle; exact Hh.
Defined.

(** Counterexample to C4 as stated: with lengths 0.1, 0.2 and 0.3 the
    three elements are distinct, [get_length()] is 0.6000000000000001
    and [get_s] of the last element is 0.30000000000000004, which is not
    the total length minus the element's own length,
    0.3000000000000001. *)
Lemma get_s_last_not_total_minus_length :
  NoDup (_lattice (self (start ring)))
  ∧ _lattice (self (start ring)) = [0; 1] ++ [2]
  ∧ Element_length (ElementAPI := tenth_elements) 2 = 0.3%float
  ∧ (get_length (elements := tenth_elements) (start ring)).1
    = Ok 0.6000000000000001%float
  ∧ (get_s (elements := tenth_elements) 2 (start ring)).1
    = Ok 0.30000000000000004%float
  ∧ (0.6000000000000001 - 0.3 = 0.3000000000000001)%float
  ∧ 0.30000000000000004%float ≠ (0.6000000000000001 - 0.3)%float.
Proof.
  split; [exact ring_distinct|].
  do 5 (split; [vm_compute; reflexivity|]).
  by apply (float_apart (0.6000000000000001 - 0.3)).
Qed.

(** Element 3 has the length, tags and cell of element 0 but is not in
    the ring. *)
Lemma get_s_spec_witness :
  get_s 0 (start ring) = (Ok 0%Z, start ring)
  ∧ get_s 1 (start ring) = (Ok 1%Z, start ring)
  ∧ get_s 2 (start ring) = (Ok 3%Z, start ring)
  ∧ (∃ total, (get_length (start ring)).1 = Ok total ∧ total = 3 + 3)%Z
  ∧ Element_length 3 = Element_length 0
  ∧ Element_families 3 = Element_families 0
  ∧ Element_cell 3 = Element_cell 0
  ∧ get_s 3 (start ring) = (Raise LatticeException, start ring).
Proof.
  destruct (get_s_spec (start ring) ring_distinct)
    as (Hpos & Hfirst & Hlast & Hmissing).
  split; [exact (Hfirst 0 [1; 2] eq_refl)|].
  split; [exact (Hpos [0] 1 [2] eq_refl)|].
  split; [exact (Hpos [0; 1] 2 [] eq_refl)|].
  split.
  { destruct (Hlast [0; 1] 2 eq_refl) as (total & s_pos & Ht & _ & Hs & Hsum).
    exists total. split; [exact Ht|]. by rewrite Hsum, Hs. }
  do 3 (split; [reflexivity|]). apply Hmissing.
  apply (bool_decide_unpack _). vm_compute. exact I.
Defined.

Lemma set_element_values_spec_witness :
  (set_element_values (Some "BPM") "x" [4; 5; 6]%Z (start ring)).1
  = Raise LatticeException
  ∧ set_element_values (Some "BPM") "x" [4; 5]%Z (start ring)
    = (Ok tt,
       {| self := ring;
          world := <[(2, "x") := 5%Z]>
                     (<[(0, "x") := 4%Z]> (world (start ring)));
          calls := [Call_Element_set_value 0 "x" 4%Z;
                    Call_Element_set_value 2 "x" 5%Z] |}).
Proof.
  destruct (set_element_values_spec (Some "BPM") "x" [4; 5; 6]%Z (start ring))
    as [Hdiffer _].
  destruct (set_element_values_spec (Some "BPM") "x" [4; 5]%Z (start ring))
    as (_ & Hsame & _).
  split.
  - apply Hdiffer. vm_compute. congruence.
  - apply Hsame; [reflexivity|]. intros e v w _. reflexivity.
Defined.

Lemma set_get_round_trip_witness :
  (set_value "x" 3%Z SP "physics" "live" (start ring)).1 = Ok tt
  ∧ (get_value "x" SP "physics" "live"
       (set_value "x" 3%Z SP "physics" "live" (start ring)).2).1 = Ok 3%Z.
Proof.
  apply (set_get_round_trip "x" 3%Z "physics" "live" (start ring) live 10%Z).
  - vm_compute. reflexivity.
  - vm_compute. reflexivity.
  - intros x w. apply (write_read live "x" SP).
  - intros x. apply mirror_twice.
Defined.

(** Asked for every element's device on x, the quadrupole's KeyError is
    passed over. *)
Lemma get_element_devices_spec_witness :
  Element_get_device 1 "x" (world (start ring)) = Raise KeyError
  ∧ (get_element_devices None "x" (start ring)).1
    = Ok ["BPM0:X"; "BPM2:X"]
  ∧ (get_element_device_names None "x" (start ring)).1
    = Ok ["BPM0:X"; "BPM2:X"].
Proof.
  split; [reflexivity|].
  pose proof (get_element_devices_spec None "x" (start ring)
                (λ e _, device_of_found_or_KeyError e "x")) as Hrun.
  vm_compute in Hrun. vm_compute. exact Hrun.
Defined.

Lemma get_length_spec_witness :
  (get_length (elements := float_elements) (start ring)).1 = Ok 6%float
  ∧ (get_s (elements := float_elements) 2 (start ring)).1 = Ok 3%float.
Proof.
  destruct (@get_length_spec Z string World nat nat Z) as [_ Hthree].
  apply (Hthree float_elements (start ring) 0 1 2); reflexivity.
Defined.

Lemma set_element_values_mismatch_witness :
  set_element_values (Some "BPM") "x" [4; 5; 6]%Z (start ring)
  = (Raise LatticeException, start ring).
Proof.
  apply set_element_values_mismatch. vm_compute. congruence.
Defined.

End OnTheRing.

(** ** More of the methods at work on the small ring *)

Section MoreOnTheRing.
Import Demo Faulty.

Lemma add_element_sequence_witness :
  let s' := (add_elements [3; 0] (start ring)).2 in
  __len__ s' = (Ok 5, s')
  ∧ __getitem__ 3 s' = (Ok 3, s')
  ∧ __getitem__ 4 s' = (Ok 0, s')
  ∧ __getitem__ 1 s' = (Ok 1, s').
Proof.
  destruct (add_element_sequence [3; 0] (start ring))
    as (_ & Hlen & Hnew & Hold).
  split; [exact Hlen|].
  split; [exact (Hnew 0 3 eq_refl)|].
  split; [exact (Hnew 1 0 eq_refl)|].
  exact (Hold 1 1 eq_refl).
Defined.

Lemma getitem_bounds_witness :
  __getitem__ (-1) (start ring) = (Ok 2, start ring)
  ∧ __getitem__ 3 (start ring) = (Raise IndexError, start ring)
  ∧ __getitem__ 0 (start empty_ring) = (Raise IndexError, start empty_ring).
Proof.
  destruct (getitem_bounds (-1) (start ring)) as (_ & _ & _ & Hlast).
  destruct (getitem_bounds 3 (start ring)) as (_ & _ & Hout & _).
  destruct (getitem_bounds 0 (start empty_ring)) as (_ & _ & Hempty & _).
  split; [exact (Hlast 2 eq_refl)|].
  split; [apply Hout|apply Hempty]; right; vm_compute; congruence.
Defined.

Lemma get_value_unknown_model_witness :
  get_value "x" "readback" "engineering" "simulation" (start ring)
  = (Raise DeviceException, start ring).
Proof. apply get_value_unknown_model. vm_compute. reflexivity. Defined.

Lemma get_value_model_raises_witness :
  get_value "y" "readback" "engineering" "live" (start ring)
  = (Raise FieldException,
     {| self := ring; world := world (start ring);
        calls := [Call_Model_get_value live "y" "readback"] |}).
Proof.
  refine (get_value_model_raises "y" "readback" "engineering" "live"
           (start ring) live FieldException (world (start ring)) _ _);
    vm_compute; reflexivity.
Defined.

Lemma get_value_convert_raises_witness :
  (get_value (unitconvs := strict_unitconvs)
     "x" "readback" "physics" "live" (start ring)).1
  = Raise (OtherException "UnitsException").
Proof.
  refine (get_value_convert_raises (unitconvs := strict_unitconvs)
           "x" "readback" "physics" "live" (start ring) live 10%Z 7%Z
           (world (start ring)) (OtherException "UnitsException") _ _ _ _);
    vm_compute; reflexivity.
Defined.

Lemma set_value_unknown_model_witness :
  set_value "x" 3%Z SP "engineering" "simulation" (start ring)
  = (Raise DeviceException, start ring).
Proof. apply set_value_unknown_model. vm_compute. reflexivity. Defined.

Lemma set_value_no_unitconv_witness :
  set_value "x" 3%Z SP "engineering" "live" (start bare_ring)
  = (Raise FieldException, start bare_ring).
Proof.
  refine (set_value_no_unitconv "x" 3%Z "engineering" "live"
           (start bare_ring) live _ _);
    vm_compute; reflexivity.
Defined.

Lemma set_value_convert_raises_witness :
  set_value (unitconvs := strict_unitconvs)
    "x" 3%Z SP "physics" "live" (start ring)
  = (Raise (OtherException "UnitsException"),
     {| self := ring; world := world (start ring);
        calls := [Call_UnitConv_convert 10%Z 3%Z "physics" "engineering"] |}).
Proof.
  refine (set_value_convert_raises (unitconvs := strict_unitconvs)
           "x" 3%Z "physics" "live" (start ring) live 10%Z
           (OtherException "UnitsException") _ _ _);
    vm_compute; reflexivity.
Defined.

Lemma set_value_model_raises_witness :
  set_value (models := readonly_models)
    "x" 3%Z SP "physics" "live" (start ring)
  = (Raise FieldException,
     {| self := ring; world := world (start ring);
        calls := [Call_UnitConv_convert 10%Z 3%Z "physics" "engineering";
                  Call_Model_set_value live "x" 7%Z] |}).
Proof.
  refine (set_value_model_raises (models := readonly_models)
           "x" 3%Z 7%Z "physics" "live" (start ring) live 10%Z KeyError
           (world (start ring)) _ _ _ _);
    vm_compute; reflexivity.
Defined.

Lemma add_device_no_live_model_witness :
  add_device "x" "BPM0:X" 10%Z (start empty_ring)
  = (Raise KeyError, start empty_ring).
Proof. apply add_device_no_live_model. vm_compute. reflexivity. Defined.

Lemma add_device_model_raises_witness :
  (add_device (models := readonly_models) "y" "BPM0:Y" 4%Z (start ring)).1
  = Raise (OtherException "TypeError")
  ∧ self (add_device (models := readonly_models)
            "y" "BPM0:Y" 4%Z (start ring)).2
    = ring.
Proof.
  refine (add_device_model_raises (models := readonly_models)
           "y" "BPM0:Y" 4%Z (start ring) live (OtherException "TypeError")
           (world (start ring)) _ _);
    vm_compute; reflexivity.
Defined.

Lemma add_device_get_unitconv_witness :
  let s' := (add_device "x" "BPM0:X" 4%Z (start ring)).2 in
  get_unitconv "x" (start ring) = (Ok 10%Z, start ring)
  ∧ get_unitconv "x" s' = (Ok 4%Z, s')
  ∧ (get_unitconv "y" s').1 = Raise KeyError.
Proof.
  destruct (add_device_get_unitconv "x" "BPM0:X" 4%Z (start ring) live
              (world (start ring)))
    as (_ & Hsame & Hother & _); [vm_compute; reflexivity..|].
  split; [vm_compute; reflexivity|].
  split; [exact Hsame|].
  rewrite (Hother "y") by (vm_compute; congruence).
  vm_compute. reflexivity.
Defined.

Lemma set_model_get_device_witness :
  "simulation" ≠ LIVE
  ∧ (get_device "x" (set_model 200 "simulation" (start empty_ring)).2).1
    = Raise KeyError
  ∧ (get_device "x" (set_model 200 LIVE (start empty_ring)).2).1
    = Model_get_device 200 "x" (world (start empty_ring)).
Proof.
  assert (Hne : "simulation" ≠ LIVE) by (vm_compute; congruence).
  destruct (set_model_get_device 200 "x" (start empty_ring))
    as (Hlive & _ & Hother).
  split; [exact Hne|].
  split; [|exact Hlive].
  rewrite (Hother "simulation" Hne). vm_compute. reflexivity.
Defined.

Lemma get_s_first_occurrence_witness :
  let s' := (add_elements [1] (start ring)).2 in
  _lattice (self s') = [0; 1; 2; 1]
  ∧ get_s 1 s' = (Ok 1%Z, s')
  ∧ ¬ ∃ s_pos, (get_s 3 s').1 = Ok s_pos.
Proof.
  intros s'.
  destruct (get_s_first_occurrence 1 s') as [_ Hpos].
  destruct (get_s_first_occurrence 3 s') as [[Hin _] _].
  split; [reflexivity|].
  split.
  - apply Hpos. apply (bool_decide_unpack _). vm_compute. exact I.
  - intros Hs. apply Hin in Hs. revert Hs.
    apply (bool_decide_unpack _). vm_compute. exact I.
Defined.

Lemma add_element_positions_witness :
  let s' := (add_element 3 (start ring)).2 in
  get_length s' = (Ok 7%Z, s')
  ∧ get_s 3 s' = (Ok 6%Z, s')
  ∧ (get_s 2 s').1 = (get_s 2 (start ring)).1.
Proof.
  intros s'.
  destruct (add_element_positions 3 (start ring))
    as (total & Htotal & Hlen & Hnew & Hold).
  assert (total = 6%Z) as ->
    by (rewrite get_length_run in Htotal; by injection Htotal as <-).
  split; [exact Hlen|].
  split.
  - apply Hnew. apply (bool_decide_unpack _). vm_compute. exact I.
  - apply Hold. apply (bool_decide_unpack _). vm_compute. exact I.
Defined.

Lemma get_element_devices_propagates_witness :
  (get_element_devices (elements := guarded_elements) None "x" (start ring)).1
  = Raise DeviceException.
Proof.
  apply (get_element_devices_propagates (elements := guarded_elements)
           None "x" (start ring) [0] 1 [2] DeviceException).
  - reflexivity.
  - intros e' He. apply elem_of_cons in He as [->|He].
    + left. by exists "BPM0:X".
    + by apply elem_of_nil in He.
  - reflexivity.
  - congruence.
Defined.

Lemma get_element_values_spec_witness :
  (get_element_values (Some "BPM") "x" "readback" None filled).1
  = Ok (AsList [1; 5]%Z)
  ∧ (get_element_values (Some "BPM") "x" "readback" (Some tt) filled).1
    = Ok (AsArray [1; 5]%Z).
Proof.
  destruct (get_element_values_spec (Some "BPM") "x" "readback" bpm_x filled)
    as (Hlist & Harray & _).
  - assert (Hbpm : family_of (Some "BPM") (_lattice (self filled)) = [0; 2])
      by (vm_compute; reflexivity).
    intros e He. rewrite Hbpm in He.
    apply elem_of_cons in He as [->|He]; [vm_compute; reflexivity|].
    apply elem_of_cons in He as [->|He]; [vm_compute; reflexivity|].
    by apply elem_of_nil in He.
  - split; [exact Hlist|exact (Harray tt)].
Defined.

Lemma get_element_values_propagates_witness :
  (get_element_values None "x" "readback" None filled).1
  = Raise FieldException.
Proof.
  apply (get_element_values_propagates None "x" "readback" None bpm_x filled
           [0] 1 [2] FieldException (world filled)).
  - reflexivity.
  - intros e' He. apply elem_of_cons in He as [->|He].
    + vm_compute. reflexivity.
    + by apply elem_of_nil in He.
  - vm_compute. reflexivity.
Defined.

Lemma get_fields_spec_witness :
  ∃ fields, (get_fields (start ring)).1 = Ok fields ∧ "x" ∈ fields.
Proof.
  destruct (get_fields_spec (start ring)) as (fields & s' & Hrun & _ & _ & Hin).
  - intros key m _. by exists {["x"]}.
  - exists fields. split; [by rewrite Hrun|].
    apply Hin. exists "live", live, {["x"]}.
    split; [vm_compute; reflexivity|]. split; [reflexivity|set_solver].
Defined.

End MoreOnTheRing.
